(** * rl_deepracer_coach_robomaker: the orchestration notebook, embedded.

    The notebook is a sequence of cells; each cell is a short Python script
    that calls cloud SDKs, reads the clock, prints, and may raise.  Every
    cell is embedded as a computation in a small monad [NB] that
      - receives the answers of the outside world from an oracle [Cloud],
        which may depend on everything that happened before;
      - emits the externally visible events of the cell, in order;
      - either returns a value or raises a Python exception. *)

From Stdlib Require Import Ascii.
From stdpp Require Import base option list strings pretty gmap.


(** ** Python strings *)

Module PyStr.

(** [s.startswith(p)] *)
Fixpoint startswith (p s : string) : bool :=
  match p, s with
  | EmptyString, _ => true
  | String a p', String b s' => if Ascii.eqb a b then startswith p' s' else false
  | String _ _, EmptyString => false
  end.

(** [sub in s] on two [str] values: [sub] occurs somewhere in [s]. *)
Fixpoint str_in (sub s : string) : bool :=
  startswith sub s ||
  match s with
  | EmptyString => false
  | String _ s' => str_in sub s'
  end.

(** ['%02d' % n], the width the C library gives the two-digit directives. *)
Definition pad2 (n : nat) : string :=
  if decide (n < 10) then "0" +:+ pretty n else pretty n.

End PyStr.

(** ** [time.gmtime] and [time.strftime] *)

Module Time.

(** [time.struct_time]: the broken-down UTC time [gmtime()] returns. *)
Record struct_time := {
  tm_year : nat; tm_mon : nat; tm_mday : nat;
  tm_hour : nat; tm_min : nat; tm_sec : nat;
  tm_wday : nat; tm_yday : nat; tm_isdst : nat
}.

(** One conversion directive, [%] followed by [d]. *)
Definition directive (d : ascii) (t : struct_time) : string :=
  if Ascii.eqb d "y" then PyStr.pad2 (tm_year t `mod` 100)
  else if Ascii.eqb d "Y" then pretty (tm_year t)
  else if Ascii.eqb d "m" then PyStr.pad2 (tm_mon t)
  else if Ascii.eqb d "d" then PyStr.pad2 (tm_mday t)
  else if Ascii.eqb d "H" then PyStr.pad2 (tm_hour t)
  else if Ascii.eqb d "M" then PyStr.pad2 (tm_min t)
  else if Ascii.eqb d "S" then PyStr.pad2 (tm_sec t)
  else String "%" (String d EmptyString).

(** [strftime(fmt, t)]: directives are expanded, other characters copied. *)
Fixpoint strftime (fmt : string) (t : struct_time) : string :=
  match fmt with
  | EmptyString => EmptyString
  | String c rest =>
      if Ascii.eqb c "%" then
        match rest with
        | EmptyString => String c EmptyString
        | String d rest' => directive d t +:+ strftime rest' t
        end
      else String c (strftime rest t)
  end.

(** Two clock reads fall within the same second when all six calendar
    fields agree. *)
Definition same_second (a b : struct_time) : Prop :=
  tm_year a = tm_year b ∧ tm_mon a = tm_mon b ∧ tm_mday a = tm_mday b ∧
  tm_hour a = tm_hour b ∧ tm_min a = tm_min b ∧ tm_sec a = tm_sec b.

End Time.

Import Time.

(** ** Exceptions and outcomes *)

(** A raised Python exception: its class and what [str(e)] gives. *)
Record PyExc := { exc_type : string; exc_str : string }.

Definition Exception (msg : string) : PyExc :=
  {| exc_type := "Exception"; exc_str := msg |}.
Definition AssertionError (msg : string) : PyExc :=
  {| exc_type := "AssertionError"; exc_str := msg |}.
Definition IndexError (msg : string) : PyExc :=
  {| exc_type := "IndexError"; exc_str := msg |}.
Definition KeyError (msg : string) : PyExc :=
  {| exc_type := "KeyError"; exc_str := msg |}.

Inductive outcome (A : Type) : Type :=
| Ret (a : A)
| Raise (e : PyExc).
Arguments Ret {A} a.
Arguments Raise {A} e.

Definition returns {A} (o : outcome A) : bool :=
  match o with Ret _ => true | Raise _ => false end.

(** ** Records exchanged with the services *)

(** Entries of [ec2.describe_*] results, with the keys the notebook reads. *)
Record Vpc := { VpcId : string; IsDefault : bool }.
Record SecurityGroup := { GroupId : string; GroupName : string; sg_VpcId : string }.
Record Subnet := { SubnetId : string; sn_VpcId : string; DefaultForAz : bool }.
Record RouteTable := { RouteTableId : string; rt_VpcId : string }.

(** Keyword arguments of [ec2.create_vpc_endpoint]. *)
Record VpcEndpointRequest := {
  DryRun : bool;
  VpcEndpointType : string;
  ep_VpcId : string;
  ServiceName : string;
  RouteTableIds : list string
}.

Record MetricDefinition := { Name : string; Regex : string }.

(** Arguments of the [RLEstimator] constructor together with those of
    [estimator.fit]. *)
Record TrainingRequest := {
  entry_point : string;
  source_dir : string;
  dependencies : list string;
  toolkit : string;
  toolkit_version : string;
  framework : string;
  tr_role : string;
  train_instance_type : string;
  train_instance_count : nat;
  output_path : string;
  base_job_name : string;
  train_max_run : nat;
  hyperparameters : gmap string string;
  tr_metric_definitions : list MetricDefinition;
  tr_subnets : list string;
  security_group_ids : list string;
  fit_job_name : string;
  fit_wait : bool
}.

Record BundleSource := { s3Bucket : string; s3Key : string; architecture : string }.
Record SoftwareSuite := { suite_name : string; suite_version : string }.

Record SimulationApplicationRequest := {
  app_name : string;
  sources : list BundleSource;
  simulationSoftwareSuite : SoftwareSuite;
  robotSoftwareSuite : SoftwareSuite;
  renderingEngine : SoftwareSuite
}.

Record LaunchConfig := {
  packageName : string;
  launchFile : string;
  environmentVariables : gmap string string
}.

Record SimulationApplication := {
  application : string;
  launchConfig : LaunchConfig
}.

Record VpcConfig := {
  subnets : list string;
  securityGroups : list string;
  assignPublicIp : bool
}.

Record OutputLocation := { out_s3Bucket : string; s3Prefix : string }.

(** Keyword arguments of [robomaker.create_simulation_job]. *)
Record SimulationJobRequest := {
  iamRole : string;
  clientRequestToken : string;
  maxJobDurationInSeconds : nat;
  failureBehavior : string;
  simulationApplications : list SimulationApplication;
  vpcConfig : VpcConfig;
  outputLocation : OutputLocation
}.

(** The key of a service response the notebook reads, [response["arn"]]. *)
Record ArnResponse := { arn : string }.

(** ** The metrics table *)

(** A [pandas.DataFrame] as [read_csv] builds it: the column names in
    order, and the rows in order.  A row holds its present cells by column
    name; a missing value (NaN) is a column without an entry.  A present
    value is kept as the text of its CSV field, since the notebook never
    computes with it. *)
Record DataFrame := {
  columns : list string;
  rows : list (gmap string string)
}.

(** The arguments of [df.plot(x=..., y=..., figsize=..., legend=...,
    style=...)], with the frame it is called on. *)
Record PlotCall := {
  plot_data : DataFrame;
  plot_x : string;
  plot_y : string;
  figsize : nat * nat;
  legend : bool;
  style : string
}.

(** ** Events *)

(** An argument of [print]. *)
Inductive PyVal :=
| PStr (s : string)
| PList (l : list string).

(** What a cell does that is visible outside the interpreter. *)
Inductive Event :=
| EvSession
| EvDefaultBucket
| EvGmtime
| EvPrint (args : list PyVal)
| EvDisplay (markdown : string)
| EvShell (command : string)
| EvSagemakerGetExecutionRole
| EvGetExecutionRole (role_name : string)
| EvDescribeVpcs
| EvDescribeSecurityGroups
| EvDescribeSubnets
| EvDescribeRouteTables
| EvCreateVpcEndpoint (req : VpcEndpointRequest)
| EvFit (req : TrainingRequest)
| EvCreateSimulationApplication (req : SimulationApplicationRequest)
| EvCreateSimulationJob (req : SimulationJobRequest)
| EvWaitForS3Object (bucket key local_dir : string)
| EvReadCsv (file : string)
| EvPlot (plot : PlotCall)
| EvSetYLabel (label : string)
| EvSetXLabel (label : string)
| EvCancelSimulationJob (job : string)
| EvStopTrainingJob (training_job_name : string)
| EvDeleteSimulationApplication (app : string).

(** Calls that leave the machine for a cloud service.  [default_bucket]
    asks the storage service for the account's bucket (creating it if need
    be); the others are the EC2, SageMaker, RoboMaker and S3 operations the
    notebook names.  Clock reads, output, plotting and session construction
    are local. *)
Definition is_network_call (ev : Event) : bool :=
  match ev with
  | EvSession | EvGmtime | EvPrint _ | EvDisplay _ | EvReadCsv _
  | EvPlot _ | EvSetYLabel _ | EvSetXLabel _ => false
  | EvShell command =>
      PyStr.str_in "aws s3" command || PyStr.startswith "wget" command
  | _ => true
  end.

(** The networking (EC2), training and simulation operations. *)
Definition is_provisioning_call (ev : Event) : bool :=
  match ev with
  | EvDescribeVpcs | EvDescribeSecurityGroups | EvDescribeSubnets
  | EvDescribeRouteTables | EvCreateVpcEndpoint _ | EvFit _
  | EvCreateSimulationApplication _ | EvCreateSimulationJob _
  | EvCancelSimulationJob _ | EvStopTrainingJob _
  | EvDeleteSimulationApplication _ => true
  | _ => false
  end.

(** Counting the events of one kind in a trace. *)
Definition count_events (p : Event → bool) (evs : list Event) : nat :=
  length (List.filter p evs).

Definition is_clock_read (ev : Event) : bool :=
  match ev with EvGmtime => true | _ => false end.

Definition is_create_simulation_job (ev : Event) : bool :=
  match ev with EvCreateSimulationJob _ => true | _ => false end.

Definition is_create_vpc_endpoint (ev : Event) : bool :=
  match ev with EvCreateVpcEndpoint _ => true | _ => false end.

Definition is_cancel_simulation_job (ev : Event) : bool :=
  match ev with EvCancelSimulationJob _ => true | _ => false end.

(** ** The outside world *)

(** Everything the notebook learns from outside: the answer to each call may
    depend on the events so far.  The markdown helpers of the [common]
    directory only build text and are taken as given functions.  Whether the
    plotting library draws the frame it is handed or refuses it is the
    library's answer too. *)
Record Cloud := {
  new_session : list Event → outcome unit;
  boto_region_name : string;
  default_bucket : list Event → outcome string;
  gmtime : list Event → struct_time;
  sagemaker_get_execution_role : list Event → outcome string;
  get_execution_role : list Event → string → outcome string;
  describe_vpcs : list Event → outcome (list Vpc);
  describe_security_groups : list Event → outcome (list SecurityGroup);
  describe_subnets : list Event → outcome (list Subnet);
  describe_route_tables : list Event → outcome (list RouteTable);
  create_vpc_endpoint : list Event → VpcEndpointRequest → outcome unit;
  fit : list Event → TrainingRequest → outcome unit;
  create_simulation_application :
    list Event → SimulationApplicationRequest → outcome ArnResponse;
  create_simulation_job :
    list Event → SimulationJobRequest → outcome ArnResponse;
  wait_for_s3_object : list Event → string → string → string → outcome unit;
  read_csv : list Event → string → outcome DataFrame;
  df_plot : list Event → PlotCall → outcome unit;
  cancel_simulation_job : list Event → string → outcome unit;
  stop_training_job : list Event → string → outcome unit;
  delete_simulation_application : list Event → string → outcome unit;
  generate_help_for_robomaker_trust_relationship : string → string;
  generate_help_for_s3_endpoint_permissions : string → string;
  create_s3_endpoint_manually : string → string → string;
  generate_help_for_robomaker_all_permissions : string → string;
  generate_robomaker_links : list string → string → string
}.

(** ** The notebook monad *)

(** A computation reads the oracle and the events that came before it, and
    gives its outcome with the events it emitted itself. *)
Definition NB (A : Type) : Type :=
  Cloud → list Event → outcome A * list Event.

Global Instance nb_ret : MRet NB :=
  λ A a _ _, (Ret a, []).

Global Instance nb_bind : MBind NB :=
  λ A B k m cloud past,
    match m cloud past with
    | (Ret a, evs) =>
        let '(r, evs') := k a cloud (past ++ evs) in (r, evs ++ evs')
    | (Raise e, evs) => (Raise e, evs)
    end.

(** [raise e] *)
Definition raise {A} (e : PyExc) : NB A :=
  λ _ _, (Raise e, []).

(** Reading something the oracle holds without any visible effect. *)
Definition ask {A} (f : Cloud → A) : NB A :=
  λ cloud _, (Ret (f cloud), []).

(** An event with no answer: [print], [display], a shell escape. *)
Definition emit (ev : Event) : NB unit :=
  λ _ _, (Ret tt, [ev]).

(** A call that is answered by the oracle and recorded as [ev]. *)
Definition call {A} (ev : Event) (f : Cloud → list Event → outcome A) : NB A :=
  λ cloud past, (f cloud past, [ev]).

(** [gmtime()] *)
Definition read_clock : NB struct_time :=
  λ cloud past, (Ret (gmtime cloud past), [EvGmtime]).

(** [try: body  except Exception as e: handler(e)] *)
Definition try_except {A} (body : NB A) (handler : PyExc → NB A) : NB A :=
  λ cloud past,
    match body cloud past with
    | (Ret a, evs) => (Ret a, evs)
    | (Raise e, evs) =>
        let '(r, evs') := handler e cloud (past ++ evs) in (r, evs ++ evs')
    end.

(** [assert cond, msg] *)
Definition assert (cond : bool) (msg : string) : NB unit :=
  if cond then mret tt else raise (AssertionError msg).

(** [for x in xs: acc = body(x, acc)] *)
Fixpoint for_each {A S} (xs : list A) (body : A → S → NB S) (acc : S) : NB S :=
  match xs with
  | [] => mret acc
  | x :: xs' => acc' ← body x acc; for_each xs' body acc'
  end.

(** [range(n)] *)
Definition range (n : nat) : list nat := seq 0 n.

(** Running a computation after the events [past]. *)
Definition run {A} (m : NB A) (cloud : Cloud) (past : list Event)
  : outcome A * list Event := m cloud past.

(** Every event [m] emits, whatever the oracle answers and whatever came
    before, satisfies [P]. *)
Definition emits {A} (P : Event → Prop) (m : NB A) : Prop :=
  ∀ cloud past, Forall P (run m cloud past).2.

(** ** The cells *)

(** A double quote, for the shell commands that carry one. *)
Definition dquote : string := String "034"%char EmptyString.

(** *** Setup S3 bucket *)

Definition setup_s3_bucket : NB (string * string) :=
  call EvSession new_session;;
  s3_bucket ← call EvDefaultBucket default_bucket;
  let s3_output_path := "s3://" +:+ s3_bucket +:+ "/" in
  mret (s3_bucket, s3_output_path).

(** *** Define Variables *)

Record Variables := {
  job_name_prefix : string;
  tm : struct_time;
  job_name : string;
  s3_prefix : string;
  s3_prefix_robomaker : string;
  job_duration_in_seconds : nat;
  aws_region : string
}.

Definition supported_regions : list string :=
  ["us-west-2"; "us-east-1"; "eu-west-1"].

Definition unsupported_region_message : string :=
  "This notebook uses RoboMaker which is available only in US East (N. Virginia), US West (Oregon) and EU (Ireland). Please switch to one of these regions.".

Definition define_variables (s3_output_path : string) : NB Variables :=
  let job_name_prefix := "rl-deepracer" in
  tm ← read_clock;
  let s3_prefix :=
    job_name_prefix +:+ "-sagemaker-" +:+ strftime "%y%m%d-%H%M%S" tm in
  let job_name := s3_prefix in
  let s3_prefix_robomaker :=
    job_name_prefix +:+ "-robomaker-" +:+ strftime "%y%m%d-%H%M%S" tm in
  let job_duration_in_seconds := 3600 * 5 in
  aws_region ← ask boto_region_name;
  (if bool_decide (aws_region ∉ supported_regions)
   then raise (Exception unsupported_region_message)
   else mret tt);;
  emit (EvPrint [PStr ("Model checkpoints and other metadata will be stored at: "
                       +:+ s3_output_path +:+ job_name)]);;
  mret {| job_name_prefix := job_name_prefix; tm := tm; job_name := job_name;
          s3_prefix := s3_prefix; s3_prefix_robomaker := s3_prefix_robomaker;
          job_duration_in_seconds := job_duration_in_seconds;
          aws_region := aws_region |}.

(** *** Create an IAM role *)

Definition create_iam_role : NB string :=
  role ← try_except
           (call EvSagemakerGetExecutionRole sagemaker_get_execution_role)
           (λ _, call (EvGetExecutionRole "sagemaker")
                      (λ cloud past, get_execution_role cloud past "sagemaker"));
  emit (EvPrint [PStr ("Using IAM role arn: " +:+ role)]);;
  mret role.

(** *** Permission setup for invoking AWS RoboMaker *)

Definition permission_setup (role : string) : NB unit :=
  help ← ask (λ cloud, generate_help_for_robomaker_trust_relationship cloud role);
  emit (EvDisplay help).

(** *** Configure VPC *)

Record Network := {
  default_vpc : string;
  default_security_groups : list string;
  default_subnets : list string
}.

(** [l[0]] *)
Definition first_item {A} (l : list A) : NB A :=
  match l with
  | x :: _ => mret x
  | [] => raise (IndexError "list index out of range")
  end.

Definition configure_vpc : NB Network :=
  vpcs ← call EvDescribeVpcs describe_vpcs;
  default_vpc ← first_item (VpcId <$> filter (λ vpc, IsDefault vpc = true) vpcs);
  groups ← call EvDescribeSecurityGroups describe_security_groups;
  let default_security_groups :=
    GroupId <$> filter (λ group, GroupName group = "default"
                                 ∧ sg_VpcId group = default_vpc) groups in
  subnets ← call EvDescribeSubnets describe_subnets;
  let default_subnets :=
    SubnetId <$> filter (λ subnet, sn_VpcId subnet = default_vpc
                                   ∧ DefaultForAz subnet = true) subnets in
  emit (EvPrint [PStr "Using default VPC:"; PStr default_vpc]);;
  emit (EvPrint [PStr "Using default security group:"; PList default_security_groups]);;
  emit (EvPrint [PStr "Using default subnets:"; PList default_subnets]);;
  mret {| default_vpc := default_vpc;
          default_security_groups := default_security_groups;
          default_subnets := default_subnets |}.

(** *** The S3 endpoint of the VPC *)

(** The first [try]: the route tables of the default VPC. *)
Definition find_route_tables (aws_region role default_vpc : string)
  : NB (list string) :=
  try_except
    (tables ← call EvDescribeRouteTables describe_route_tables;
     mret (RouteTableId <$> filter (λ route_table, rt_VpcId route_table = default_vpc)
                                   tables))
    (λ e,
       (if PyStr.str_in "UnauthorizedOperation" (exc_str e)
        then help ← ask (λ cloud, generate_help_for_s3_endpoint_permissions cloud role);
             emit (EvDisplay help)
        else help ← ask (λ cloud, create_s3_endpoint_manually cloud aws_region default_vpc);
             emit (EvDisplay help));;
       raise e).

Definition vpc_endpoint_request (aws_region default_vpc : string)
    (route_tables : list string) : VpcEndpointRequest :=
  {| DryRun := false;
     VpcEndpointType := "Gateway";
     ep_VpcId := default_vpc;
     ServiceName := "com.amazonaws." +:+ aws_region +:+ ".s3";
     RouteTableIds := route_tables |}.

(** The second [try]: creating the endpoint. *)
Definition attach_s3_endpoint (aws_region role default_vpc : string)
    (route_tables : list string) : NB unit :=
  let req := vpc_endpoint_request aws_region default_vpc route_tables in
  try_except
    (call (EvCreateVpcEndpoint req) (λ cloud past, create_vpc_endpoint cloud past req);;
     emit (EvPrint [PStr "S3 endpoint created successfully!"]))
    (λ e,
       if PyStr.str_in "RouteAlreadyExists" (exc_str e)
       then emit (EvPrint [PStr "S3 endpoint already exists."])
       else if PyStr.str_in "UnauthorizedOperation" (exc_str e)
       then help ← ask (λ cloud, generate_help_for_s3_endpoint_permissions cloud role);
            emit (EvDisplay help);;
            raise e
       else help ← ask (λ cloud, create_s3_endpoint_manually cloud aws_region default_vpc);
            emit (EvDisplay help);;
            raise e).

Definition no_route_tables_message : string :=
  "No route tables were found. Please follow the VPC S3 endpoint creation guide by clicking the above link.".

Definition create_s3_endpoint (aws_region role default_vpc : string) : NB unit :=
  route_tables ← find_route_tables aws_region role default_vpc;
  emit (EvPrint [PStr "Trying to attach S3 endpoints to the following route tables:";
                 PList route_tables]);;
  assert (bool_decide (1 ≤ length route_tables)) no_route_tables_message;;
  attach_s3_endpoint aws_region role default_vpc route_tables.

(** *** Configure the preset, upload the environment and preset files *)

Definition show_preset : NB unit :=
  emit (EvShell "pygmentize src/robomaker/presets/deepracer.py").

Definition upload_environment (s3_bucket s3_prefix : string) : NB unit :=
  let s3_location := "s3://" +:+ s3_bucket +:+ "/" +:+ s3_prefix in
  let excludes :=
    " --recursive --exclude " +:+ dquote +:+ ".ipynb_checkpoints*" +:+ dquote
    +:+ " --exclude " +:+ dquote +:+ "*.pyc" +:+ dquote in
  emit (EvShell ("aws s3 rm --recursive " +:+ s3_location));;
  emit (EvShell ("aws s3 cp src/robomaker/environments/ " +:+ s3_location
                 +:+ "/environments/" +:+ excludes));;
  emit (EvShell ("aws s3 cp src/robomaker/presets/ " +:+ s3_location
                 +:+ "/presets/" +:+ excludes)).

(** *** Train the RL model *)

(** A dict display [{k1: v1, k2: v2, ...}]: entries are stored from left to
    right, so a repeated key keeps its last value. *)
Definition dict (entries : list (string * string)) : gmap string string :=
  fold_left (λ d kv, <[kv.1 := kv.2]> d) entries ∅.

Definition metric_definitions : list MetricDefinition :=
  [ {| Name := "reward-training";
       Regex := "^Training>.*Total reward=(.*?)," |};
    {| Name := "ppo-surrogate-loss";
       Regex := "^Policy training>.*Surrogate loss=(.*?)," |};
    {| Name := "ppo-entropy";
       Regex := "^Policy training>.*Entropy=(.*?)," |};
    {| Name := "reward-testing";
       Regex := "^Testing>.*Total reward=(.*?)," |} ].

Definition RLCOACH_PRESET : string := "deepracer".

Definition instance_type : string := "ml.c4.2xlarge".

Definition estimator (v : Variables) (s3_bucket s3_output_path role : string)
    (net : Network) : TrainingRequest :=
  {| entry_point := "training_worker.py";
     source_dir := "src";
     dependencies := ["common/sagemaker_rl"];
     toolkit := "COACH";
     toolkit_version := "0.10.1";
     framework := "TENSORFLOW";
     tr_role := role;
     train_instance_type := instance_type;
     train_instance_count := 1;
     output_path := s3_output_path;
     base_job_name := job_name_prefix v;
     train_max_run := job_duration_in_seconds v;
     hyperparameters := dict [("s3_bucket", s3_bucket);
                              ("s3_prefix", s3_prefix v);
                              ("aws_region", aws_region v);
                              ("RLCOACH_PRESET", RLCOACH_PRESET)];
     tr_metric_definitions := metric_definitions;
     tr_subnets := default_subnets net;
     security_group_ids := default_security_groups net;
     fit_job_name := job_name v;
     fit_wait := false |}.

(** [estimator.fit(job_name=job_name, wait=False)]; the estimator keeps the
    name as its current job name. *)
Definition train (v : Variables) (s3_bucket s3_output_path role : string)
    (net : Network) : NB string :=
  let req := estimator v s3_bucket s3_output_path role net in
  call (EvFit req) (λ cloud past, fit cloud past req);;
  mret (fit_job_name req).

(** *** Create Simulation Application *)

Definition bundle_s3_key : string := "deepracer/simulation_ws.tar.gz".

Definition simulation_application_bundle_location : string :=
  "https://s3-us-west-2.amazonaws.com/robomaker-applications-us-west-2-11d8d0439f6a/deep-racer/deep-racer-1.0.80.0.1.0.106.0/simulation_ws.tar.gz".

Definition upload_bundle (s3_bucket : string) : NB unit :=
  emit (EvShell ("wget " +:+ simulation_application_bundle_location));;
  emit (EvShell ("aws s3 cp simulation_ws.tar.gz s3://" +:+ s3_bucket +:+ "/"
                 +:+ bundle_s3_key));;
  emit (EvShell "rm simulation_ws.tar.gz").

Definition simulation_application_request (app_name s3_bucket : string)
  : SimulationApplicationRequest :=
  {| app_name := app_name;
     sources := [ {| s3Bucket := s3_bucket; s3Key := bundle_s3_key;
                     architecture := "X86_64" |} ];
     simulationSoftwareSuite := {| suite_name := "Gazebo"; suite_version := "7" |};
     robotSoftwareSuite := {| suite_name := "ROS"; suite_version := "Kinetic" |};
     renderingEngine := {| suite_name := "OGRE"; suite_version := "1.x" |} |}.

Definition create_simulation_app (s3_bucket role : string) : NB string :=
  now ← read_clock;
  let app_name :=
    "deepracer-sample-application" +:+ strftime "%y%m%d-%H%M%S" now in
  let req := simulation_application_request app_name s3_bucket in
  try_except
    (response ← call (EvCreateSimulationApplication req)
                     (λ cloud past, create_simulation_application cloud past req);
     let simulation_app_arn := arn response in
     emit (EvPrint [PStr "Created a new simulation app with ARN:";
                    PStr simulation_app_arn]);;
     mret simulation_app_arn)
    (λ e,
       if PyStr.str_in "AccessDeniedException" (exc_str e)
       then help ← ask (λ cloud, generate_help_for_robomaker_all_permissions cloud role);
            emit (EvDisplay help);;
            raise e
       else raise e).

(** *** Launch the Simulation job on RoboMaker *)

(** The notebook sets [num_simulation_workers = 1]; the cell is written for
    any count. *)
Definition default_num_simulation_workers : nat := 1.

Definition training_environ_vars (v : Variables) (s3_bucket : string)
    (num_simulation_workers : nat) : gmap string string :=
  dict [("MODEL_S3_BUCKET", s3_bucket);
        ("MODEL_S3_PREFIX", s3_prefix v);
        ("ROS_AWS_REGION", aws_region v);
        ("WORLD_NAME", "hard_track");
        ("MARKOV_PRESET_FILE", RLCOACH_PRESET +:+ ".py");
        ("NUMBER_OF_ROLLOUT_WORKERS", pretty num_simulation_workers)].

Definition simulation_job_request (v : Variables) (s3_bucket role : string)
    (simulation_application : SimulationApplication) (net : Network)
    (token : string) : SimulationJobRequest :=
  {| iamRole := role;
     clientRequestToken := token;
     maxJobDurationInSeconds := job_duration_in_seconds v;
     failureBehavior := "Continue";
     simulationApplications := [simulation_application];
     vpcConfig := {| subnets := default_subnets net;
                     securityGroups := default_security_groups net;
                     assignPublicIp := true |};
     outputLocation := {| out_s3Bucket := s3_bucket;
                          s3Prefix := s3_prefix_robomaker v |} |}.

(** One [robomaker.create_simulation_job(...)]: the token is formatted from
    a fresh clock read while the arguments are evaluated. *)
Definition submit_simulation_job (v : Variables) (s3_bucket role : string)
    (simulation_application : SimulationApplication) (net : Network)
  : NB ArnResponse :=
  now ← read_clock;
  let req := simulation_job_request v s3_bucket role simulation_application net
               (strftime "%Y-%m-%d-%H-%M-%S" now) in
  call (EvCreateSimulationJob req) (λ cloud past, create_simulation_job cloud past req).

Definition training_application (v : Variables) (s3_bucket simulation_app_arn : string)
    (num_simulation_workers : nat) : SimulationApplication :=
  {| application := simulation_app_arn;
     launchConfig :=
       {| packageName := "deepracer_simulation";
          launchFile := "distributed_training.launch";
          environmentVariables :=
            training_environ_vars v s3_bucket num_simulation_workers |} |}.

Definition launch_simulation_jobs (num_simulation_workers : nat) (v : Variables)
    (s3_bucket role simulation_app_arn : string) (net : Network)
  : NB (list string) :=
  let simulation_application :=
    training_application v s3_bucket simulation_app_arn num_simulation_workers in
  responses ←
    for_each (range num_simulation_workers)
      (λ job_no responses,
         response ← submit_simulation_job v s3_bucket role simulation_application net;
         mret (responses ++ [response]))
      [];
  emit (EvPrint [PStr "Created the following jobs:"]);;
  let job_arns := arn <$> responses in
  for_each job_arns (λ job_arn _, emit (EvPrint [PStr "Job ARN"; PStr job_arn])) tt;;
  mret job_arns.

Definition show_links (job_arns : list string) (aws_region : string) : NB unit :=
  links ← ask (λ cloud, generate_robomaker_links cloud job_arns aws_region);
  emit (EvDisplay links).

(** *** Plot metrics for training job *)

(** A pure step that may raise. *)
Definition lift {A} (o : outcome A) : NB A :=
  λ _ _, (o, []).

(** The two hexadecimal digits of a character code. *)
Definition hex_digit (n : nat) : ascii :=
  if decide (n < 10) then Ascii.ascii_of_nat (48 + n) else Ascii.ascii_of_nat (87 + n).

Definition backslash : ascii := "092"%char.

(** One character inside [repr] of a [str] delimited by [quote]. *)
Definition repr_char (quote c : ascii) : string :=
  let code := Ascii.nat_of_ascii c in
  let escaped (e : ascii) := String backslash (String e EmptyString) in
  if Ascii.eqb c backslash || Ascii.eqb c quote then escaped c
  else if Ascii.eqb c "010"%char then escaped "n"%char
  else if Ascii.eqb c "013"%char then escaped "r"%char
  else if Ascii.eqb c "009"%char then escaped "t"%char
  else if bool_decide (code < 32 ∨ code = 127)
  then String backslash
         (String "x"%char (String (hex_digit (code `div` 16))
                        (String (hex_digit (code `mod` 16)) EmptyString)))
  else String c EmptyString.

Fixpoint repr_chars (quote : ascii) (s : string) : string :=
  match s with
  | EmptyString => EmptyString
  | String c s' => repr_char quote c +:+ repr_chars quote s'
  end.

(** [repr(s)] of a [str]: single quotes unless the text has a single and no
    double quote; backslash, the delimiter and control characters escaped.
    Bytes above 127 are parts of characters that print as themselves. *)
Definition py_repr (s : string) : string :=
  let quote :=
    if PyStr.str_in "'" s && negb (PyStr.str_in dquote s)
    then "034"%char else "'"%char in
  String quote (repr_chars quote s) +:+ String quote EmptyString.

(** [df.dropna(subset=[name])]: the rows that have a value in that column,
    in their order; a column the frame does not have is a [KeyError] that
    carries the list of the names not found, so [str(e)] is the [repr] of
    that list. *)
Definition dropna (name : string) (df : DataFrame) : outcome DataFrame :=
  if decide (name ∈ columns df)
  then Ret {| columns := columns df;
              rows := filter (λ row, is_Some (row !! name)) (rows df) |}
  else Raise (KeyError ("[" +:+ py_repr name +:+ "]")).

Definition make_tmp_dir (job_name : string) : NB (string * string) :=
  let tmp_dir := "/tmp/" +:+ job_name in
  emit (EvShell ("mkdir " +:+ tmp_dir));;
  emit (EvPrint [PStr ("Create local folder " +:+ tmp_dir)]);;
  let intermediate_folder_key := job_name +:+ "/output/intermediate" in
  mret (tmp_dir, intermediate_folder_key).

Definition csv_file_name : string :=
  "worker_0.simple_rl_graph.main_level.main_level.agent_0.csv".

(** From the loaded table to the figure: the rows without a reward are
    dropped, the rest is handed to [df.plot], and the axes of the figure that
    comes back are labelled. *)
Definition plot_training_reward (df : DataFrame) : NB unit :=
  df ← lift (dropna "Training Reward" df);
  let x_axis := "Episode #" in
  let y_axis := "Training Reward" in
  let plot := {| plot_data := df; plot_x := x_axis; plot_y := y_axis;
                 figsize := (12, 5); legend := true; style := "b-" |} in
  call (EvPlot plot) (λ cloud past, df_plot cloud past plot);;
  emit (EvSetYLabel y_axis);;
  emit (EvSetXLabel x_axis).

Definition plot_metrics (s3_bucket tmp_dir intermediate_folder_key : string)
  : NB unit :=
  let key := intermediate_folder_key +:+ "/" +:+ csv_file_name in
  call (EvWaitForS3Object s3_bucket key tmp_dir)
       (λ cloud past, wait_for_s3_object cloud past s3_bucket key tmp_dir);;
  let csv_file := tmp_dir +:+ "/" +:+ csv_file_name in
  df ← call (EvReadCsv csv_file) (λ cloud past, read_csv cloud past csv_file);
  plot_training_reward df.

(** *** Clean Up *)

Definition cancel_simulation_jobs (job_arns : list string) : NB unit :=
  for_each job_arns
    (λ job_arn _, call (EvCancelSimulationJob job_arn)
                       (λ cloud past, cancel_simulation_job cloud past job_arn))
    tt.

Definition stop_training (current_job_name : string) : NB unit :=
  call (EvStopTrainingJob current_job_name)
       (λ cloud past, stop_training_job cloud past current_job_name).

(** *** Evaluation *)

Definition evaluation_environ_vars (v : Variables) (s3_bucket : string)
  : gmap string string :=
  dict [("MODEL_S3_BUCKET", s3_bucket);
        ("MODEL_S3_PREFIX", s3_prefix v);
        ("ROS_AWS_REGION", aws_region v);
        ("NUMBER_OF_TRIALS", pretty 20);
        ("MARKOV_PRESET_FILE", RLCOACH_PRESET +:+ ".py");
        ("WORLD_NAME", "hard_track")].

Definition evaluation_application (v : Variables) (s3_bucket simulation_app_arn : string)
  : SimulationApplication :=
  {| application := simulation_app_arn;
     launchConfig :=
       {| packageName := "deepracer_simulation";
          launchFile := "evaluation.launch";
          environmentVariables := evaluation_environ_vars v s3_bucket |} |}.

Definition evaluate (v : Variables) (s3_bucket role simulation_app_arn : string)
    (net : Network) : NB unit :=
  response ← submit_simulation_job v s3_bucket role
               (evaluation_application v s3_bucket simulation_app_arn) net;
  emit (EvPrint [PStr "Created the following job:"]);;
  emit (EvPrint [PStr "Job ARN"; PStr (arn response)]).

(** *** Clean Up Simulation Application Resource *)

Definition delete_simulation_app (simulation_app_arn : string) : NB unit :=
  call (EvDeleteSimulationApplication simulation_app_arn)
       (λ cloud past, delete_simulation_application cloud past simulation_app_arn).

(** ** The notebook, top to bottom *)

Definition notebook (num_simulation_workers : nat) : NB unit :=
  '(s3_bucket, s3_output_path) ← setup_s3_bucket;
  v ← define_variables s3_output_path;
  role ← create_iam_role;
  permission_setup role;;
  net ← configure_vpc;
  create_s3_endpoint (aws_region v) role (default_vpc net);;
  show_preset;;
  upload_environment s3_bucket (s3_prefix v);;
  current_job_name ← train v s3_bucket s3_output_path role net;
  upload_bundle s3_bucket;;
  simulation_app_arn ← create_simulation_app s3_bucket role;
  job_arns ← launch_simulation_jobs num_simulation_workers v s3_bucket role
               simulation_app_arn net;
  show_links job_arns (aws_region v);;
  '(tmp_dir, intermediate_folder_key) ← make_tmp_dir (job_name v);
  plot_metrics s3_bucket tmp_dir intermediate_folder_key;;
  cancel_simulation_jobs job_arns;;
  stop_training current_job_name;;
  evaluate v s3_bucket role simulation_app_arn net;;
  delete_simulation_app simulation_app_arn.

(** ** What the reward plot should show *)

(** A row of the table has no reward: the reward column is not among the
    columns the row holds a value for. *)
Definition missing (row : gmap string string) : Prop :=
  "Training Reward" ∉ dom row.

Definition is_plot (ev : Event) : bool :=
  match ev with EvPlot _ => true | _ => false end.

(** ** The naming contract between the jobs *)

(** What an event says about the storage prefix, if it is the submission
    of the training job or of a simulation job. *)
Definition agrees_on_prefix (prefix : string) (ev : Event) : Prop :=
  match ev with
  | EvFit req =>
      fit_job_name req = prefix ∧ hyperparameters req !! "s3_prefix" = Some prefix
  | EvCreateSimulationJob req =>
      Forall (λ app, environmentVariables (launchConfig app) !! "MODEL_S3_PREFIX"
                     = Some prefix)
             (simulationApplications req)
  | _ => True
  end.

Definition is_fit (ev : Event) : bool :=
  match ev with EvFit _ => true | _ => false end.

(** The request of the training-time simulation jobs, as a function of the
    time its token is formatted from. *)
Definition training_job_request (v : Variables) (s3_bucket role simulation_app_arn : string)
    (num_simulation_workers : nat) (net : Network) (t : struct_time)
  : SimulationJobRequest :=
  simulation_job_request v s3_bucket role
    (training_application v s3_bucket simulation_app_arn num_simulation_workers)
    net (strftime "%Y-%m-%d-%H-%M-%S" t).

(** ** A sample account *)

Definition launch_time : struct_time :=
  {| tm_year := 2019; tm_mon := 3; tm_mday := 7;
     tm_hour := 5; tm_min := 9; tm_sec := 1;
     tm_wday := 3; tm_yday := 66; tm_isdst := 0 |}.

(** Four episodes; the first and the third have no reward yet. *)
Definition episode_1 : gmap string string :=
  {[ "Episode #" := "1"; "Training Iter" := "0" ]}.
Definition episode_2 : gmap string string :=
  {[ "Episode #" := "2"; "Training Iter" := "0"; "Training Reward" := "-102.88" ]}.
Definition episode_3 : gmap string string :=
  {[ "Episode #" := "3"; "Training Iter" := "1" ]}.
Definition episode_4 : gmap string string :=
  {[ "Episode #" := "4"; "Training Iter" := "1"; "Training Reward" := "13.5" ]}.

Definition sample_metrics : DataFrame :=
  {| columns := ["Episode #"; "Training Iter"; "Training Reward"];
     rows := [episode_1; episode_2; episode_3; episode_4] |}.

(** An account in [region] whose clock stands still, with the answers of
    the calls that the error paths depend on left open. *)
Definition account (region : string) (vpcs : outcome (list Vpc))
    (tables : outcome (list RouteTable)) (endpoint : outcome unit)
    (job : outcome ArnResponse) : Cloud :=
  {| new_session := λ _, Ret tt;
     boto_region_name := region;
     default_bucket := λ _, Ret "sagemaker-bucket";
     gmtime := λ _, launch_time;
     sagemaker_get_execution_role := λ _, Ret "arn:aws:iam::1:role/notebook";
     get_execution_role := λ _ _, Ret "arn:aws:iam::1:role/sagemaker";
     describe_vpcs := λ _, vpcs;
     describe_security_groups := λ _,
       Ret [ {| GroupId := "sg-0"; GroupName := "default"; sg_VpcId := "vpc-0" |};
             {| GroupId := "sg-1"; GroupName := "web"; sg_VpcId := "vpc-0" |} ];
     describe_subnets := λ _,
       Ret [ {| SubnetId := "subnet-0"; sn_VpcId := "vpc-0"; DefaultForAz := true |};
             {| SubnetId := "subnet-1"; sn_VpcId := "vpc-1"; DefaultForAz := true |} ];
     describe_route_tables := λ _, tables;
     create_vpc_endpoint := λ _ _, endpoint;
     fit := λ _ _, Ret tt;
     create_simulation_application := λ _ _, Ret {| arn := "arn:app" |};
     create_simulation_job := λ _ _, job;
     wait_for_s3_object := λ _ _ _ _, Ret tt;
     read_csv := λ _ _, Ret sample_metrics;
     df_plot := λ _ _, Ret tt;
     cancel_simulation_job := λ _ _, Ret tt;
     stop_training_job := λ _ _, Ret tt;
     delete_simulation_application := λ _ _, Ret tt;
     generate_help_for_robomaker_trust_relationship := λ role, "trust " +:+ role;
     generate_help_for_s3_endpoint_permissions := λ role, "permissions " +:+ role;
     create_s3_endpoint_manually := λ region vpc, "manual " +:+ region +:+ " " +:+ vpc;
     generate_help_for_robomaker_all_permissions := λ role, "robomaker " +:+ role;
     generate_robomaker_links := λ arns region, "links " +:+ region |}.

Definition sample_vpcs : list Vpc :=
  [ {| VpcId := "vpc-1"; IsDefault := false |};
    {| VpcId := "vpc-0"; IsDefault := true |} ].

Definition sample_tables : list RouteTable :=
  [ {| RouteTableId := "rtb-0"; rt_VpcId := "vpc-0" |};
    {| RouteTableId := "rtb-1"; rt_VpcId := "vpc-1" |} ].

(** Everything answers. *)
Definition healthy_account (region : string) : Cloud :=
  account region (Ret sample_vpcs) (Ret sample_tables) (Ret tt)
          (Ret {| arn := "arn:job" |}).

(** A clock that advances by one second with every event. *)
Definition ticking_clock (past : list Event) : struct_time :=
  {| tm_year := 2019; tm_mon := 3; tm_mday := 7;
     tm_hour := 5; tm_min := 9; tm_sec := length past `mod` 60;
     tm_wday := 3; tm_yday := 66; tm_isdst := 0 |}.

Definition ticking_account : Cloud :=
  let base := healthy_account "us-west-2" in
  {| new_session := new_session base;
     boto_region_name := boto_region_name base;
     default_bucket := default_bucket base;
     gmtime := ticking_clock;
     sagemaker_get_execution_role := sagemaker_get_execution_role base;
     get_execution_role := get_execution_role base;
     describe_vpcs := describe_vpcs base;
     describe_security_groups := describe_security_groups base;
     describe_subnets := describe_subnets base;
     describe_route_tables := describe_route_tables base;
     create_vpc_endpoint := create_vpc_endpoint base;
     fit := fit base;
     create_simulation_application := create_simulation_application base;
     create_simulation_job := create_simulation_job base;
     wait_for_s3_object := wait_for_s3_object base;
     read_csv := read_csv base;
     df_plot := df_plot base;
     cancel_simulation_job := cancel_simulation_job base;
     stop_training_job := stop_training_job base;
     delete_simulation_application := delete_simulation_application base;
     generate_help_for_robomaker_trust_relationship :=
       generate_help_for_robomaker_trust_relationship base;
     generate_help_for_s3_endpoint_permissions :=
       generate_help_for_s3_endpoint_permissions base;
     create_s3_endpoint_manually := create_s3_endpoint_manually base;
     generate_help_for_robomaker_all_permissions :=
       generate_help_for_robomaker_all_permissions base;
     generate_robomaker_links := generate_robomaker_links base |}.

(** What the EC2 client raises; [str(e)] is the text. *)
Definition ClientError (msg : string) : PyExc :=
  {| exc_type := "ClientError"; exc_str := msg |}.

Definition route_exists_error : PyExc :=
  ClientError "An error occurred (RouteAlreadyExists) when calling the CreateVpcEndpoint operation: route table rtb-0 already has a route with destination-prefix-list-id pl-68a54001".

Definition unauthorized_error : PyExc :=
  ClientError "An error occurred (UnauthorizedOperation) when calling the DescribeRouteTables operation: You are not authorized to perform this operation.".

(** An authorization failure whose text also names the route conflict. *)
Definition unauthorized_route_error : PyExc :=
  ClientError "An error occurred (UnauthorizedOperation) when calling the CreateVpcEndpoint operation: not authorized to resolve RouteAlreadyExists".

Definition sample_variables : Variables :=
  {| job_name_prefix := "rl-deepracer";
     tm := launch_time;
     job_name := "rl-deepracer-sagemaker-190307-050901";
     s3_prefix := "rl-deepracer-sagemaker-190307-050901";
     s3_prefix_robomaker := "rl-deepracer-robomaker-190307-050901";
     job_duration_in_seconds := 3600 * 5;
     aws_region := "us-west-2" |}.

Definition sample_network : Network :=
  {| default_vpc := "vpc-0";
     default_security_groups := ["sg-0"];
     default_subnets := ["subnet-0"] |}.


(** ** Further sample answers *)

Definition access_denied_error : PyExc :=
  ClientError "An error occurred (AccessDeniedException) when calling the CreateSimulationApplication operation: not authorized".

Definition throttling_error : PyExc :=
  ClientError "An error occurred (RequestLimitExceeded) when calling the operation: Request limit exceeded.".

(** An account without a role attached to the notebook: the SDK lookup of
    the execution role raises, the helper of the [common] directory answers. *)
Definition local_machine (fallback : outcome string) : Cloud :=
  let base := healthy_account "us-west-2" in
  {| new_session := new_session base;
     boto_region_name := boto_region_name base;
     default_bucket := default_bucket base;
     gmtime := gmtime base;
     sagemaker_get_execution_role := λ _, Raise (ClientError "The current AWS identity is not a role");
     get_execution_role := λ _ _, fallback;
     describe_vpcs := describe_vpcs base;
     describe_security_groups := describe_security_groups base;
     describe_subnets := describe_subnets base;
     describe_route_tables := describe_route_tables base;
     create_vpc_endpoint := create_vpc_endpoint base;
     fit := fit base;
     create_simulation_application := λ _ _, Raise access_denied_error;
     create_simulation_job := create_simulation_job base;
     wait_for_s3_object := wait_for_s3_object base;
     read_csv := read_csv base;
     df_plot := df_plot base;
     cancel_simulation_job := λ _ job,
       if decide (job = "arn:job-2") then Raise throttling_error else Ret ();
     stop_training_job := stop_training_job base;
     delete_simulation_application := delete_simulation_application base;
     generate_help_for_robomaker_trust_relationship :=
       generate_help_for_robomaker_trust_relationship base;
     generate_help_for_s3_endpoint_permissions :=
       generate_help_for_s3_endpoint_permissions base;
     create_s3_endpoint_manually := create_s3_endpoint_manually base;
     generate_help_for_robomaker_all_permissions :=
       generate_help_for_robomaker_all_permissions base;
     generate_robomaker_links := generate_robomaker_links base |}.

Definition is_display (ev : Event) : bool :=
  match ev with EvDisplay _ => true | _ => false end.


(** The ranges [gmtime] keeps the calendar fields in. *)
Definition in_calendar_range (t : struct_time) : Prop :=
  1 ≤ tm_mon t ≤ 12 ∧ 1 ≤ tm_mday t ≤ 31 ∧
  tm_hour t ≤ 23 ∧ tm_min t ≤ 59 ∧ tm_sec t ≤ 61.

(** One second after [launch_time]. *)
Definition a_second_later : struct_time :=
  {| tm_year := 2019; tm_mon := 3; tm_mday := 7;
     tm_hour := 5; tm_min := 9; tm_sec := 2;
     tm_wday := 3; tm_yday := 66; tm_isdst := 0 |}.


(** A table without its reward column. *)
Definition metrics_without_reward_column : DataFrame :=
  {| columns := ["Episode #"; "Training Iter"];
     rows := [episode_1; episode_3] |}.

(** ** The stages of a run *)

From stdpp Require Import sorting.

(** The request of the Evaluation cell, told apart by its launch file. *)
Definition is_evaluation_request (req : SimulationJobRequest) : bool :=
  bool_decide (launchFile <$> (launchConfig <$> simulationApplications req)
               = ["evaluation.launch"]).

(** The stage of the workflow a service call belongs to; clock reads,
    output, plotting and shell escapes belong to none. *)
Definition phase (ev : Event) : option nat :=
  match ev with
  | EvSession => Some 0
  | EvDefaultBucket => Some 1
  | EvSagemakerGetExecutionRole | EvGetExecutionRole _ => Some 2
  | EvDescribeVpcs => Some 3
  | EvDescribeSecurityGroups => Some 4
  | EvDescribeSubnets => Some 5
  | EvDescribeRouteTables => Some 6
  | EvCreateVpcEndpoint _ => Some 7
  | EvFit _ => Some 8
  | EvCreateSimulationApplication _ => Some 9
  | EvCreateSimulationJob req => if is_evaluation_request req then Some 14 else Some 10
  | EvWaitForS3Object _ _ _ | EvReadCsv _ => Some 11
  | EvCancelSimulationJob _ => Some 12
  | EvStopTrainingJob _ => Some 13
  | EvDeleteSimulationApplication _ => Some 15
  | EvGmtime | EvPrint _ | EvDisplay _ | EvShell _
  | EvPlot _ | EvSetYLabel _ | EvSetXLabel _ => None
  end.

(** The service calls of [m] happen in stage order, within the stages
    [lo] to [hi]. *)
Definition staged (lo hi : nat) {A} (m : NB A) : Prop :=
  ∀ cloud past,
    StronglySorted le (omap phase (run m cloud past).2) ∧
    Forall (λ p, lo ≤ p ≤ hi) (omap phase (run m cloud past).2).

(** ** What the requests of one run have in common *)

(** The values a run settles on before it provisions anything. *)
Record Setting := {
  set_bucket : string;
  set_job_name : string;
  set_role : string;
  set_network : Network
}.

(** One role, one set of subnets and security groups, one VPC. *)
Definition shares_identity (role : string) (net : Network) (ev : Event) : Prop :=
  match ev with
  | EvCreateVpcEndpoint req => ep_VpcId req = default_vpc net
  | EvFit req =>
      tr_role req = role ∧
      tr_subnets req = default_subnets net ∧
      security_group_ids req = default_security_groups net
  | EvCreateSimulationJob req =>
      iamRole req = role ∧
      subnets (vpcConfig req) = default_subnets net ∧
      securityGroups (vpcConfig req) = default_security_groups net
  | _ => True
  end.

(** The events that name the role or the network. *)
Definition names_identity (ev : Event) : bool :=
  match ev with
  | EvCreateVpcEndpoint _ | EvFit _ | EvCreateSimulationJob _ => true
  | _ => false
  end.

(** One bucket, and the places derived from the name of the training job. *)
Definition shares_storage (bucket name : string) (ev : Event) : Prop :=
  match ev with
  | EvFit req =>
      output_path req = "s3://" +:+ bucket +:+ "/" ∧
      fit_job_name req = name ∧
      hyperparameters req !! "s3_bucket" = Some bucket
  | EvCreateSimulationApplication req =>
      Forall (λ source, s3Bucket source = bucket) (sources req)
  | EvCreateSimulationJob req =>
      out_s3Bucket (outputLocation req) = bucket ∧
      Forall (λ app, environmentVariables (launchConfig app) !! "MODEL_S3_BUCKET"
                     = Some bucket)
             (simulationApplications req)
  | EvWaitForS3Object in_bucket key local_dir =>
      in_bucket = bucket ∧
      key = (name +:+ "/output/intermediate") +:+ "/" +:+ csv_file_name ∧
      local_dir = "/tmp/" +:+ name
  | EvReadCsv file =>
      file = ("/tmp/" +:+ name) +:+ "/" +:+ csv_file_name
  | EvStopTrainingJob stopped => stopped = name
  | _ => True
  end.

(** One region. *)
Definition uses_region (region : string) (ev : Event) : Prop :=
  match ev with
  | EvCreateVpcEndpoint req => ServiceName req = "com.amazonaws." +:+ region +:+ ".s3"
  | EvFit req => hyperparameters req !! "aws_region" = Some region
  | EvCreateSimulationJob req =>
      Forall (λ app, environmentVariables (launchConfig app) !! "ROS_AWS_REGION"
                     = Some region)
             (simulationApplications req)
  | _ => True
  end.

Definition consistent (region : string) (s : Setting) (ev : Event) : Prop :=
  shares_identity (set_role s) (set_network s) ev ∧
  shares_storage (set_bucket s) (set_job_name s) ev ∧
  uses_region region ev.

(** The events that carry no request: they are consistent with anything. *)
Definition carries_request (ev : Event) : bool :=
  match ev with
  | EvCreateVpcEndpoint _ | EvFit _ | EvCreateSimulationApplication _
  | EvCreateSimulationJob _ | EvWaitForS3Object _ _ _ | EvReadCsv _
  | EvStopTrainingJob _ => true
  | _ => false
  end.

(** All events of [m] satisfy [P], and a returned value satisfies [Q]. *)
Definition ensures {A} (P : Event → Prop) (m : NB A) (Q : A → Prop) : Prop :=
  ∀ cloud past,
    Forall P (run m cloud past).2 ∧ ∀ a, (run m cloud past).1 = Ret a → Q a.

Definition no_setting : Setting :=
  {| set_bucket := EmptyString; set_job_name := EmptyString; set_role := EmptyString;
     set_network := {| default_vpc := EmptyString; default_security_groups := [];
                       default_subnets := [] |} |}.

(** ** The keywords the services look for *)

(** The prefix a training request carries names [sagemaker], the output
    prefix of a simulation request names [robomaker]. *)
Definition keeps_markers (ev : Event) : Prop :=
  match ev with
  | EvFit req =>
      ∃ prefix, hyperparameters req !! "s3_prefix" = Some prefix
                ∧ PyStr.str_in "sagemaker" prefix = true
  | EvCreateSimulationJob req =>
      PyStr.str_in "robomaker" (s3Prefix (outputLocation req)) = true ∧
      Forall (λ app, ∃ prefix,
                environmentVariables (launchConfig app) !! "MODEL_S3_PREFIX" = Some prefix
                ∧ PyStr.str_in "sagemaker" prefix = true)
             (simulationApplications req)
  | _ => True
  end.

Definition submits_job (ev : Event) : bool :=
  match ev with EvFit _ | EvCreateSimulationJob _ => true | _ => false end.
(** * Properties *)

(** ** Strings and time *)

Lemma startswith_app p s : PyStr.startswith p (p +:+ s) = true.
Proof.
  induction p as [|a p IH]; simpl; [done|].
  by rewrite Ascii.eqb_refl.
Qed.

Lemma startswith_spec p s :
  PyStr.startswith p s = true ↔ ∃ rest, s = p +:+ rest.
Proof.
  split.
  - revert s. induction p as [|a p IH]; intros s H; simpl in *.
    + by exists s.
    + destruct s as [|b s]; [done|].
      destruct (Ascii.eqb a b) eqn:E; [|done].
      apply Ascii.eqb_eq in E as ->.
      destruct (IH _ H) as [rest ->]. by exists rest.
  - intros [rest ->]. apply startswith_app.
Qed.

Lemma str_in_startswith sub s :
  PyStr.startswith sub s = true → PyStr.str_in sub s = true.
Proof. intros H. destruct s; simpl; by rewrite H. Qed.

(** [str_in] is the substring test. *)
Lemma str_in_spec sub s :
  PyStr.str_in sub s = true ↔ ∃ before after, s = before +:+ sub +:+ after.
Proof.
  split.
  - induction s as [|c s IH]; simpl; intros H.
    + apply orb_prop in H as [H|H]; [|done].
      apply startswith_spec in H as [rest ->]. by exists EmptyString, rest.
    + apply orb_prop in H as [H|H].
      * apply startswith_spec in H as [rest ->]. by exists EmptyString, rest.
      * destruct (IH H) as (before & after & ->).
        by exists (String c before), after.
  - intros (before & after & ->).
    induction before as [|c before IH]; simpl.
    + apply str_in_startswith, (startswith_app sub after).
    + rewrite IH. apply orb_true_r.
Qed.

Example strftime_compact :
  strftime "%y%m%d-%H%M%S" launch_time = "190307-050901".
Proof. vm_compute. reflexivity. Qed.

Example strftime_dashed :
  strftime "%Y-%m-%d-%H-%M-%S" launch_time = "2019-03-07-05-09-01".
Proof. vm_compute. reflexivity. Qed.

Example str_in_examples :
  PyStr.str_in "UnauthorizedOperation" (exc_str unauthorized_error) = true ∧
  PyStr.str_in "RouteAlreadyExists" (exc_str unauthorized_error) = false ∧
  PyStr.str_in "RouteAlreadyExists" (exc_str unauthorized_route_error) = true.
Proof. vm_compute. done. Qed.

Lemma directive_same_second d a b :
  same_second a b → directive d a = directive d b.
Proof.
  intros (Hy & Hm & Hd & HH & HM & HS). unfold directive.
  by rewrite Hy, Hm, Hd, HH, HM, HS.
Qed.

Lemma strftime_unfold c rest t :
  strftime (String c rest) t =
  if Ascii.eqb c "%" then
    match rest with
    | EmptyString => String c EmptyString
    | String d rest' => directive d t +:+ strftime rest' t
    end
  else String c (strftime rest t).
Proof. done. Qed.

(** The formatted text depends on the six calendar fields only. *)
Lemma strftime_same_second fmt a b :
  same_second a b → strftime fmt a = strftime fmt b.
Proof.
  intros Hab.
  assert (strftime fmt a = strftime fmt b
          ∧ ∀ c, strftime (String c fmt) a = strftime (String c fmt) b) as [H _];
    [|done].
  induction fmt as [|d fmt [IH1 IH2]].
  - split; [done|]. intros c. simpl. by destruct (Ascii.eqb c "%").
  - split; [apply IH2|].
    intros c.
    rewrite (strftime_unfold c (String d fmt) a), (strftime_unfold c (String d fmt) b).
    destruct (Ascii.eqb c "%").
    + by rewrite IH1, (directive_same_second d a b Hab).
    + by rewrite IH2.
Qed.

(** ** Running computations *)

Lemma run_ret {A} (a : A) cloud past : run (mret a) cloud past = (Ret a, []).
Proof. done. Qed.

Lemma run_bind {A B} (m : NB A) (k : A → NB B) cloud past :
  run (m ≫= k) cloud past =
  match run m cloud past with
  | (Ret a, evs) =>
      let '(r, evs') := run (k a) cloud (past ++ evs) in (r, evs ++ evs')
  | (Raise e, evs) => (Raise e, evs)
  end.
Proof. done. Qed.

Lemma run_bind_ret {A B} (m : NB A) (k : A → NB B) cloud past a evs :
  run m cloud past = (Ret a, evs) →
  run (m ≫= k) cloud past =
  ((run (k a) cloud (past ++ evs)).1, evs ++ (run (k a) cloud (past ++ evs)).2).
Proof. intros H. rewrite run_bind, H. by destruct (run (k a) cloud _). Qed.


Lemma run_emit_then {B} ev (k : () → NB B) cloud past :
  run (emit ev ≫= k) cloud past =
  ((run (k ()) cloud (past ++ [ev])).1, ev :: (run (k ()) cloud (past ++ [ev])).2).
Proof.
  rewrite run_bind. unfold run at 1, emit.
  by destruct (run (k ()) cloud (past ++ [ev])).
Qed.

Lemma run_try_except {A} (m : NB A) (h : PyExc → NB A) cloud past :
  run (try_except m h) cloud past =
  match run m cloud past with
  | (Ret a, evs) => (Ret a, evs)
  | (Raise e, evs) =>
      let '(r, evs') := run (h e) cloud (past ++ evs) in (r, evs ++ evs')
  end.
Proof. done. Qed.

(** ** Properties of all events of a computation *)

Lemma emits_ret {A} P (a : A) : emits P (mret a).
Proof. intros cloud past. constructor. Qed.

Lemma emits_raise {A} P e : emits P (@raise A e).
Proof. intros cloud past. constructor. Qed.

Lemma emits_ask {A} P (f : Cloud → A) : emits P (ask f).
Proof. intros cloud past. constructor. Qed.

Lemma emits_lift {A} P (o : outcome A) : emits P (lift o).
Proof. intros cloud past. constructor. Qed.

Lemma emits_emit P ev : P ev → emits P (emit ev).
Proof. intros H cloud past. by repeat constructor. Qed.

Lemma emits_call {A} P ev (f : Cloud → list Event → outcome A) :
  P ev → emits P (call ev f).
Proof. intros H cloud past. by repeat constructor. Qed.

Lemma emits_read_clock P : P EvGmtime → emits P read_clock.
Proof. intros H cloud past. by repeat constructor. Qed.

Lemma emits_bind {A B} P (m : NB A) (k : A → NB B) :
  emits P m → (∀ a, emits P (k a)) → emits P (m ≫= k).
Proof.
  intros Hm Hk cloud past. rewrite run_bind.
  specialize (Hm cloud past). destruct (run m cloud past) as [[a|e] evs]; [|done].
  specialize (Hk a cloud (past ++ evs)).
  destruct (run (k a) cloud (past ++ evs)) as [r evs']. simpl in *.
  by apply Forall_app.
Qed.

Lemma emits_try_except {A} P (m : NB A) (h : PyExc → NB A) :
  emits P m → (∀ e, emits P (h e)) → emits P (try_except m h).
Proof.
  intros Hm Hh cloud past. rewrite run_try_except.
  specialize (Hm cloud past). destruct (run m cloud past) as [[a|e] evs]; [done|].
  specialize (Hh e cloud (past ++ evs)).
  destruct (run (h e) cloud (past ++ evs)) as [r evs']. simpl in *.
  by apply Forall_app.
Qed.

Lemma emits_for_each {A S} P (xs : list A) (body : A → S → NB S) acc :
  (∀ x s, emits P (body x s)) → emits P (for_each xs body acc).
Proof.
  intros Hbody. revert acc.
  induction xs as [|x xs IH]; intros acc; simpl.
  - apply emits_ret.
  - apply emits_bind; [apply Hbody | intros s; apply IH].
Qed.

Lemma emits_if {A} P (b : bool) (m1 m2 : NB A) :
  emits P m1 → emits P m2 → emits P (if b then m1 else m2).
Proof. by destruct b. Qed.

Lemma emits_assert P cond msg : emits P (assert cond msg).
Proof. destruct cond; [apply emits_ret | apply emits_raise]. Qed.

Lemma emits_first_item {A} P (l : list A) : emits P (first_item l).
Proof. destruct l; [apply emits_raise | apply emits_ret]. Qed.

(** ** Job naming and the region gate *)

(** The cell either stops at the gate after its clock read, or returns the
    names built from that read and prints where the model will be stored. *)
Lemma define_variables_run cloud past s3_output_path :
  run (define_variables s3_output_path) cloud past =
  let t := gmtime cloud past in
  let name := "rl-deepracer" +:+ "-sagemaker-" +:+ strftime "%y%m%d-%H%M%S" t in
  if bool_decide (boto_region_name cloud ∉ supported_regions)
  then (Raise (Exception unsupported_region_message), [EvGmtime])
  else (Ret {| job_name_prefix := "rl-deepracer"; tm := t; job_name := name;
               s3_prefix := name;
               s3_prefix_robomaker :=
                 "rl-deepracer" +:+ "-robomaker-" +:+ strftime "%y%m%d-%H%M%S" t;
               job_duration_in_seconds := 3600 * 5;
               aws_region := boto_region_name cloud |},
        [EvGmtime;
         EvPrint [PStr ("Model checkpoints and other metadata will be stored at: "
                        +:+ s3_output_path +:+ name)]]).
Proof.
  unfold run, define_variables, mbind, nb_bind, read_clock, ask.
  cbn -[strftime Nat.mul].
  by case_bool_decide.
Qed.

Lemma define_variables_returns cloud past s3_output_path v evs :
  run (define_variables s3_output_path) cloud past = (Ret v, evs) →
  boto_region_name cloud ∈ supported_regions ∧
  tm v = gmtime cloud past ∧
  job_name v = s3_prefix v ∧
  s3_prefix v = "rl-deepracer" +:+ "-sagemaker-" +:+ strftime "%y%m%d-%H%M%S" (tm v) ∧
  s3_prefix_robomaker v
    = "rl-deepracer" +:+ "-robomaker-" +:+ strftime "%y%m%d-%H%M%S" (tm v) ∧
  aws_region v = boto_region_name cloud ∧
  evs = [EvGmtime;
         EvPrint [PStr ("Model checkpoints and other metadata will be stored at: "
                        +:+ s3_output_path +:+ job_name v)]].
Proof.
  rewrite define_variables_run. cbv zeta.
  case_bool_decide as Hregion; [done|].
  intros [= <- <-]. cbn -[strftime].
  split_and!; try done.
Qed.

Lemma define_variables_accepts cloud past s3_output_path :
  boto_region_name cloud ∈ supported_regions →
  ∃ v evs, run (define_variables s3_output_path) cloud past = (Ret v, evs).
Proof.
  intros Hregion. rewrite define_variables_run. cbv zeta.
  rewrite bool_decide_false by (by intros ?). eauto.
Qed.

(** C3: for any timestamp the clock gives, the training-job name the
    Define Variables cell generates begins with the fixed prefix
    [rl-deepracer] and contains [sagemaker], and the simulation output prefix
    contains [robomaker]. *)
Theorem C3_job_name_markers cloud past s3_output_path :
  boto_region_name cloud ∈ supported_regions →
  ∃ v evs,
    run (define_variables s3_output_path) cloud past = (Ret v, evs) ∧
    tm v = gmtime cloud past ∧
    PyStr.startswith "rl-deepracer" (job_name v) = true ∧
    PyStr.str_in "sagemaker" (job_name v) = true ∧
    PyStr.str_in "robomaker" (s3_prefix_robomaker v) = true.
Proof.
  intros Hregion.
  destruct (define_variables_accepts cloud past s3_output_path Hregion)
    as (v & evs & Hrun).
  exists v, evs. split; [done|].
  apply define_variables_returns in Hrun as (_ & Htm & -> & -> & -> & _).
  done.
Qed.

Lemma C3_job_name_markers_witness :
  ∃ v evs,
    run (define_variables "s3://sagemaker-bucket/") (healthy_account "us-west-2") []
    = (Ret v, evs) ∧
    tm v = launch_time ∧
    PyStr.startswith "rl-deepracer" (job_name v) = true ∧
    PyStr.str_in "sagemaker" (job_name v) = true ∧
    PyStr.str_in "robomaker" (s3_prefix_robomaker v) = true.
Proof.
  apply (C3_job_name_markers (healthy_account "us-west-2") [] "s3://sagemaker-bucket/").
  apply (bool_decide_unpack _). vm_compute. exact I.
Defined.

(** C10: in every run the training prefix and the simulation output prefix
    are formatted from the one timestamp of the cell's single clock read:
    they carry the same suffix and differ only in the marker. *)
Theorem C10_prefixes_share_timestamp cloud past s3_output_path :
  boto_region_name cloud ∈ supported_regions →
  ∃ v evs suffix,
    run (define_variables s3_output_path) cloud past = (Ret v, evs) ∧
    count_events is_clock_read evs = 1 ∧
    suffix = strftime "%y%m%d-%H%M%S" (gmtime cloud past) ∧
    s3_prefix v = "rl-deepracer" +:+ "-sagemaker-" +:+ suffix ∧
    s3_prefix_robomaker v = "rl-deepracer" +:+ "-robomaker-" +:+ suffix.
Proof.
  intros Hregion.
  destruct (define_variables_accepts cloud past s3_output_path Hregion)
    as (v & evs & Hrun).
  exists v, evs, (strftime "%y%m%d-%H%M%S" (gmtime cloud past)).
  split; [done|].
  apply define_variables_returns in Hrun
    as (_ & Htm & _ & Hsage & Hrobo & _ & ->).
  rewrite <- Htm. done.
Qed.

Lemma C10_prefixes_share_timestamp_witness :
  ∃ v evs suffix,
    run (define_variables "s3://sagemaker-bucket/") (healthy_account "us-west-2") []
    = (Ret v, evs) ∧
    count_events is_clock_read evs = 1 ∧
    suffix = strftime "%y%m%d-%H%M%S" launch_time ∧
    s3_prefix v = "rl-deepracer" +:+ "-sagemaker-" +:+ suffix ∧
    s3_prefix_robomaker v = "rl-deepracer" +:+ "-robomaker-" +:+ suffix.
Proof.
  apply (C10_prefixes_share_timestamp (healthy_account "us-west-2") []
           "s3://sagemaker-bucket/").
  apply (bool_decide_unpack _). vm_compute. exact I.
Defined.

Example sample_names :
  (run (define_variables "s3://sagemaker-bucket/") (healthy_account "us-west-2") []).1
  = Ret sample_variables.
Proof. vm_compute. reflexivity. Qed.

Lemma setup_s3_bucket_run cloud past :
  run setup_s3_bucket cloud past =
  match new_session cloud past with
  | Raise e => (Raise e, [EvSession])
  | Ret _ =>
      match default_bucket cloud (past ++ [EvSession]) with
      | Raise e => (Raise e, [EvSession; EvDefaultBucket])
      | Ret s3_bucket =>
          (Ret (s3_bucket, "s3://" +:+ s3_bucket +:+ "/"), [EvSession; EvDefaultBucket])
      end
  end.
Proof.
  unfold run, setup_s3_bucket, mbind, nb_bind, call.
  destruct (new_session cloud past); [|done].
  by destruct (default_bucket cloud (past ++ [EvSession])).
Qed.

(** Up to the gate the notebook has created its session, asked for the
    default bucket and read the clock. *)
Lemma notebook_rejected n cloud :
  boto_region_name cloud ∉ supported_regions →
  run (notebook n) cloud [] =
  match new_session cloud [] with
  | Raise e => (Raise e, [EvSession])
  | Ret _ =>
      match default_bucket cloud [EvSession] with
      | Raise e => (Raise e, [EvSession; EvDefaultBucket])
      | Ret _ => (Raise (Exception unsupported_region_message),
                  [EvSession; EvDefaultBucket; EvGmtime])
      end
  end.
Proof.
  intros Hregion. unfold notebook.
  rewrite run_bind, setup_s3_bucket_run.
  destruct (new_session cloud []); [|done]. cbn [app].
  destruct (default_bucket cloud [EvSession]) as [s3_bucket|e]; [|done].
  rewrite run_bind, define_variables_run. cbv zeta.
  by rewrite bool_decide_true.
Qed.

Lemma supported_regions_spec region :
  region ∈ supported_regions
  ↔ region = "us-west-2" ∨ region = "us-east-1" ∨ region = "eu-west-1".
Proof.
  unfold supported_regions. rewrite !elem_of_cons, elem_of_nil. tauto.
Qed.

(** C1, as the code has it: the gate of the Define Variables cell lets
    exactly us-west-2, us-east-1 and eu-west-1 through.  For any other
    region the notebook raises, and it does so before any networking,
    training or simulation call; the one service call that has happened by
    then is the default-bucket lookup of the preceding cell. *)
Theorem C1_region_gate cloud :
  (∀ past s3_output_path,
     returns (run (define_variables s3_output_path) cloud past).1 = true
     ↔ boto_region_name cloud = "us-west-2" ∨ boto_region_name cloud = "us-east-1"
       ∨ boto_region_name cloud = "eu-west-1") ∧
  (boto_region_name cloud ∉ supported_regions →
   ∀ n,
     returns (run (notebook n) cloud []).1 = false ∧
     Forall (λ ev, is_provisioning_call ev = false
                   ∧ (is_network_call ev = true → ev = EvDefaultBucket))
            (run (notebook n) cloud []).2 ∧
     ∀ s3_bucket,
       new_session cloud [] = Ret () →
       default_bucket cloud [EvSession] = Ret s3_bucket →
       run (notebook n) cloud [] =
       (Raise (Exception unsupported_region_message),
        [EvSession; EvDefaultBucket; EvGmtime])).
Proof.
  split.
  - intros past p. rewrite define_variables_run. cbv zeta.
    rewrite <- supported_regions_spec.
    case_bool_decide as H; simpl; split; done.
  - intros Hregion n. rewrite (notebook_rejected n cloud Hregion).
    split_and!.
    + destruct (new_session cloud []); [|done].
      by destruct (default_bucket cloud [EvSession]).
    + destruct (new_session cloud []); [|by repeat constructor].
      destruct (default_bucket cloud [EvSession]); by repeat constructor.
    + by intros s3_bucket -> ->.
Qed.

Lemma C1_region_gate_witness :
  returns (run (notebook 1) (healthy_account "ap-south-1") []).1 = false ∧
  Forall (λ ev, is_provisioning_call ev = false
                ∧ (is_network_call ev = true → ev = EvDefaultBucket))
         (run (notebook 1) (healthy_account "ap-south-1") []).2 ∧
  run (notebook 1) (healthy_account "ap-south-1") [] =
  (Raise (Exception unsupported_region_message),
   [EvSession; EvDefaultBucket; EvGmtime]).
Proof.
  destruct (C1_region_gate (healthy_account "ap-south-1")) as [_ Hrejected].
  destruct (Hrejected ltac:(apply (bool_decide_unpack _); vm_compute; exact I) 1)
    as (Hraises & Hcalls & Htrace).
  split_and!; [exact Hraises | exact Hcalls |].
  apply (Htrace "sagemaker-bucket"); reflexivity.
Defined.

(** C1 as worded fails: in ap-south-1 the notebook is rejected only after
    the default-bucket lookup, a call to the storage service. *)
Lemma C1_counterexample :
  (boto_region_name (healthy_account "ap-south-1") ∉ supported_regions) ∧
  (run (notebook default_num_simulation_workers) (healthy_account "ap-south-1") []
   = (Raise (Exception unsupported_region_message),
      [EvSession; EvDefaultBucket; EvGmtime])) ∧
  ¬ Forall (λ ev, is_network_call ev = false)
      (run (notebook default_num_simulation_workers)
           (healthy_account "ap-south-1") []).2.
Proof.
  split_and!.
  - apply (bool_decide_unpack _). vm_compute. exact I.
  - vm_compute. reflexivity.
  - intros H. apply Forall_cons_1 in H as [_ H].
    apply Forall_cons_1 in H as [H _]. discriminate H.
Qed.

(** ** The S3 endpoint of the VPC *)

Lemma find_route_tables_run aws_region role default_vpc cloud past :
  run (find_route_tables aws_region role default_vpc) cloud past =
  match describe_route_tables cloud past with
  | Ret tables =>
      (Ret (RouteTableId <$> filter (λ route_table, rt_VpcId route_table = default_vpc)
                                    tables),
       [EvDescribeRouteTables])
  | Raise e =>
      (Raise e,
       [EvDescribeRouteTables;
        EvDisplay (if PyStr.str_in "UnauthorizedOperation" (exc_str e)
                   then generate_help_for_s3_endpoint_permissions cloud role
                   else create_s3_endpoint_manually cloud aws_region default_vpc)])
  end.
Proof.
  unfold find_route_tables. rewrite run_try_except, run_bind.
  unfold run at 1, call.
  destruct (describe_route_tables cloud past) as [tables|e]; [done|].
  by destruct (PyStr.str_in "UnauthorizedOperation" (exc_str e)).
Qed.

Lemma attach_s3_endpoint_run aws_region role default_vpc route_tables cloud past :
  let req := vpc_endpoint_request aws_region default_vpc route_tables in
  run (attach_s3_endpoint aws_region role default_vpc route_tables) cloud past =
  match create_vpc_endpoint cloud past req with
  | Ret _ =>
      (Ret (), [EvCreateVpcEndpoint req; EvPrint [PStr "S3 endpoint created successfully!"]])
  | Raise e =>
      if PyStr.str_in "RouteAlreadyExists" (exc_str e)
      then (Ret (), [EvCreateVpcEndpoint req; EvPrint [PStr "S3 endpoint already exists."]])
      else if PyStr.str_in "UnauthorizedOperation" (exc_str e)
      then (Raise e, [EvCreateVpcEndpoint req;
                      EvDisplay (generate_help_for_s3_endpoint_permissions cloud role)])
      else (Raise e, [EvCreateVpcEndpoint req;
                      EvDisplay (create_s3_endpoint_manually cloud aws_region default_vpc)])
  end.
Proof.
  intros req. unfold attach_s3_endpoint. fold req.
  rewrite run_try_except, run_bind. unfold run at 1, call.
  destruct (create_vpc_endpoint cloud past req) as [[]|e]; [done|].
  destruct (PyStr.str_in "RouteAlreadyExists" (exc_str e)); [done|].
  by destruct (PyStr.str_in "UnauthorizedOperation" (exc_str e)).
Qed.

(** C4: when the endpoint-creation call raises an exception whose message
    contains [RouteAlreadyExists], the endpoint-creation step prints that the
    endpoint exists and completes without raising. *)
Theorem C4_route_already_exists cloud past aws_region role default_vpc route_tables e :
  create_vpc_endpoint cloud past
    (vpc_endpoint_request aws_region default_vpc route_tables) = Raise e →
  PyStr.str_in "RouteAlreadyExists" (exc_str e) = true →
  run (attach_s3_endpoint aws_region role default_vpc route_tables) cloud past
  = (Ret (),
     [EvCreateVpcEndpoint (vpc_endpoint_request aws_region default_vpc route_tables);
      EvPrint [PStr "S3 endpoint already exists."]]).
Proof.
  intros Hcall Hmsg. rewrite attach_s3_endpoint_run. cbv zeta.
  by rewrite Hcall, Hmsg.
Qed.

Lemma C4_route_already_exists_witness :
  run (attach_s3_endpoint "us-west-2" "arn:aws:iam::1:role/notebook" "vpc-0" ["rtb-0"])
      (account "us-west-2" (Ret sample_vpcs) (Ret sample_tables)
               (Raise route_exists_error) (Ret {| arn := "arn:job" |}))
      []
  = (Ret (),
     [EvCreateVpcEndpoint (vpc_endpoint_request "us-west-2" "vpc-0" ["rtb-0"]);
      EvPrint [PStr "S3 endpoint already exists."]]).
Proof.
  apply (C4_route_already_exists _ _ _ _ _ _ route_exists_error).
  - reflexivity.
  - vm_compute. reflexivity.
Defined.

(** C5, as the code has it: when [describe_route_tables] raises an
    exception whose message contains [UnauthorizedOperation], or
    [create_vpc_endpoint] raises one whose message contains
    [UnauthorizedOperation] and not [RouteAlreadyExists], the permissions
    help is displayed and then the same exception is raised again. *)
Theorem C5_unauthorized_reraised cloud past aws_region role default_vpc route_tables e :
  PyStr.str_in "UnauthorizedOperation" (exc_str e) = true →
  (describe_route_tables cloud past = Raise e →
   run (find_route_tables aws_region role default_vpc) cloud past
   = (Raise e,
      [EvDescribeRouteTables;
       EvDisplay (generate_help_for_s3_endpoint_permissions cloud role)])) ∧
  (create_vpc_endpoint cloud past
     (vpc_endpoint_request aws_region default_vpc route_tables) = Raise e →
   PyStr.str_in "RouteAlreadyExists" (exc_str e) = false →
   run (attach_s3_endpoint aws_region role default_vpc route_tables) cloud past
   = (Raise e,
      [EvCreateVpcEndpoint (vpc_endpoint_request aws_region default_vpc route_tables);
       EvDisplay (generate_help_for_s3_endpoint_permissions cloud role)])).
Proof.
  intros Hmsg. split.
  - intros Hcall. by rewrite find_route_tables_run, Hcall, Hmsg.
  - intros Hcall Hroute. rewrite attach_s3_endpoint_run. cbv zeta.
    by rewrite Hcall, Hroute, Hmsg.
Qed.

Lemma C5_unauthorized_reraised_witness :
  let cloud := account "us-west-2" (Ret sample_vpcs) (Raise unauthorized_error)
                       (Raise unauthorized_error) (Ret {| arn := "arn:job" |}) in
  run (find_route_tables "us-west-2" "role" "vpc-0") cloud []
  = (Raise unauthorized_error,
     [EvDescribeRouteTables; EvDisplay "permissions role"]) ∧
  run (attach_s3_endpoint "us-west-2" "role" "vpc-0" ["rtb-0"]) cloud []
  = (Raise unauthorized_error,
     [EvCreateVpcEndpoint (vpc_endpoint_request "us-west-2" "vpc-0" ["rtb-0"]);
      EvDisplay "permissions role"]).
Proof.
  intros cloud.
  destruct (C5_unauthorized_reraised cloud [] "us-west-2" "role" "vpc-0" ["rtb-0"]
              unauthorized_error) as [Hfind Hattach].
  - vm_compute. reflexivity.
  - split.
    + apply Hfind. reflexivity.
    + apply Hattach; [reflexivity | vm_compute; reflexivity].
Defined.

(** C5 as worded fails twice over.  An authorization failure of
    [create_vpc_endpoint] whose text also contains [RouteAlreadyExists] is
    swallowed: nothing is displayed and nothing is raised.  And the lookups
    of the Configure VPC cell stand outside any [try]: their authorization
    failure is raised without remediation text. *)
Lemma C5_counterexample :
  PyStr.str_in "UnauthorizedOperation" (exc_str unauthorized_route_error) = true ∧
  (run (attach_s3_endpoint "us-west-2" "role" "vpc-0" ["rtb-0"])
       (account "us-west-2" (Ret sample_vpcs) (Ret sample_tables)
                (Raise unauthorized_route_error) (Ret {| arn := "arn:job" |}))
       []
   = (Ret (),
      [EvCreateVpcEndpoint (vpc_endpoint_request "us-west-2" "vpc-0" ["rtb-0"]);
       EvPrint [PStr "S3 endpoint already exists."]])) ∧
  PyStr.str_in "UnauthorizedOperation" (exc_str unauthorized_error) = true ∧
  (run configure_vpc
       (account "us-west-2" (Raise unauthorized_error) (Ret sample_tables)
                (Ret ()) (Ret {| arn := "arn:job" |}))
       []
   = (Raise unauthorized_error, [EvDescribeVpcs])).
Proof. vm_compute. done. Qed.

(** C6: when the route-table listing has no entry for the default VPC, the
    assertion fails and no endpoint-creation call is made. *)
Theorem C6_no_route_tables cloud past aws_region role default_vpc tables :
  describe_route_tables cloud past = Ret tables →
  filter (λ route_table, rt_VpcId route_table = default_vpc) tables = [] →
  run (create_s3_endpoint aws_region role default_vpc) cloud past
  = (Raise (AssertionError no_route_tables_message),
     [EvDescribeRouteTables;
      EvPrint [PStr "Trying to attach S3 endpoints to the following route tables:";
               PList []]]) ∧
  count_events is_create_vpc_endpoint
    (run (create_s3_endpoint aws_region role default_vpc) cloud past).2 = 0.
Proof.
  intros Hcall Hnone.
  assert (run (create_s3_endpoint aws_region role default_vpc) cloud past
          = (Raise (AssertionError no_route_tables_message),
             [EvDescribeRouteTables;
              EvPrint [PStr "Trying to attach S3 endpoints to the following route tables:";
                       PList []]])) as Hrun.
  { unfold create_s3_endpoint.
    rewrite run_bind, find_route_tables_run, Hcall, Hnone. done. }
  by rewrite Hrun.
Qed.

Lemma C6_no_route_tables_witness :
  let cloud := account "us-west-2" (Ret sample_vpcs) (Ret sample_tables) (Ret ())
                       (Ret {| arn := "arn:job" |}) in
  run (create_s3_endpoint "us-west-2" "role" "vpc-9") cloud []
  = (Raise (AssertionError no_route_tables_message),
     [EvDescribeRouteTables;
      EvPrint [PStr "Trying to attach S3 endpoints to the following route tables:";
               PList []]]) ∧
  count_events is_create_vpc_endpoint
    (run (create_s3_endpoint "us-west-2" "role" "vpc-9") cloud []).2 = 0.
Proof.
  intros cloud.
  apply (C6_no_route_tables cloud [] "us-west-2" "role" "vpc-9" sample_tables).
  - reflexivity.
  - vm_compute. reflexivity.
Defined.

(** ** The naming contract *)

Lemma estimator_s3_prefix v s3_bucket s3_output_path role net :
  hyperparameters (estimator v s3_bucket s3_output_path role net) !! "s3_prefix"
  = Some (s3_prefix v).
Proof. reflexivity. Qed.

Lemma training_environ_vars_prefix v s3_bucket n :
  training_environ_vars v s3_bucket n !! "MODEL_S3_PREFIX" = Some (s3_prefix v).
Proof. reflexivity. Qed.

Lemma evaluation_environ_vars_prefix v s3_bucket :
  evaluation_environ_vars v s3_bucket !! "MODEL_S3_PREFIX" = Some (s3_prefix v).
Proof. reflexivity. Qed.

(** One step of a proof that all events of a computation satisfy a
    property: split the computation at its outermost construct. *)
Ltac emits_step :=
  lazymatch goal with
  | |- emits _ (_ ≫= _) => apply emits_bind; [|intros ?]
  | |- emits _ (try_except _ _) => apply emits_try_except; [|intros ?]
  | |- emits _ (for_each _ _ _) => apply emits_for_each; intros ? ?
  | |- emits _ (if _ then _ else _) => apply emits_if
  | |- emits _ (mret _) => apply emits_ret
  | |- emits _ (raise _) => apply emits_raise
  | |- emits _ (ask _) => apply emits_ask
  | |- emits _ (lift _) => apply emits_lift
  | |- emits _ (emit _) => apply emits_emit
  | |- emits _ (call _ _) => apply emits_call
  | |- emits _ read_clock => apply emits_read_clock
  | |- emits _ (assert _ _) => apply emits_assert
  | |- emits _ (first_item _) => apply emits_first_item
  | |- emits _ (let '(_, _) := ?p in _) => destruct p
  end.

Ltac emits_all := repeat emits_step.

(** From the events of one run to the events of all runs. *)
Ltac as_emits :=
  lazymatch goal with
  | |- Forall ?P (run ?m _ _).2 =>
      let He := fresh "He" in
      cut (emits P m); [intros He; apply He|]
  end.

Section naming_contract.
Variable v : Variables.
Hypothesis job_name_is_prefix : job_name v = s3_prefix v.

Let P := agrees_on_prefix (s3_prefix v).





End naming_contract.


(** The events of [m ≫= k] are those of [m] followed, when [m] returns, by
    those of the continuation. *)
Lemma forall_run_bind {A B} (P : Event → Prop) (m : NB A) (k : A → NB B) cloud past :
  Forall P (run m cloud past).2 →
  (∀ a, (run m cloud past).1 = Ret a →
        Forall P (run (k a) cloud (past ++ (run m cloud past).2)).2) →
  Forall P (run (m ≫= k) cloud past).2.
Proof.
  intros Hm Hk. rewrite run_bind.
  destruct (run m cloud past) as [[a|e] evs]; [|done]. simpl in *.
  specialize (Hk a eq_refl).
  destruct (run (k a) cloud (past ++ evs)) as [r evs']. simpl in *.
  by apply Forall_app.
Qed.


Example sample_run_submits_jobs :
  count_events is_fit (run (notebook 2) (healthy_account "us-west-2") []).2 = 1 ∧
  count_events is_create_simulation_job
    (run (notebook 2) (healthy_account "us-west-2") []).2 = 3 ∧
  returns (run (notebook 2) (healthy_account "us-west-2") []).1 = true.
Proof. vm_compute. done. Qed.

Example sample_run_single_worker :
  List.filter (λ ev, is_create_simulation_job ev || is_cancel_simulation_job ev)
    (run (launch_simulation_jobs 1 sample_variables "sagemaker-bucket" "role" "arn:app"
            sample_network
          ≫= cancel_simulation_jobs)
         (healthy_account "us-west-2") []).2
  = [EvCreateSimulationJob
       (training_job_request sample_variables "sagemaker-bucket" "role" "arn:app" 1
          sample_network launch_time);
     EvCancelSimulationJob "arn:job"].
Proof. vm_compute. reflexivity. Qed.

(** ** Simulation jobs *)

Lemma submit_simulation_job_run v s3_bucket role app net cloud past :
  let req := simulation_job_request v s3_bucket role app net
               (strftime "%Y-%m-%d-%H-%M-%S" (gmtime cloud past)) in
  run (submit_simulation_job v s3_bucket role app net) cloud past
  = (create_simulation_job cloud (past ++ [EvGmtime]) req,
     [EvGmtime; EvCreateSimulationJob req]).
Proof.
  intros req. unfold submit_simulation_job.
  rewrite run_bind. unfold run at 1, read_clock. fold req.
  unfold run, call. by destruct (create_simulation_job cloud _ req).
Qed.

Section launch.
Variables (v : Variables) (s3_bucket role simulation_app_arn : string).
Variables (n : nat) (net : Network) (cloud : Cloud).

Let app := training_application v s3_bucket simulation_app_arn n.

Let body := λ (job_no : nat) (responses : list ArnResponse),
  response ← submit_simulation_job v s3_bucket role app net;
  mret (responses ++ [response]).


Lemma body_run job_no responses past :
  run (body job_no responses) cloud past =
  let req := training_job_request v s3_bucket role simulation_app_arn n net
               (gmtime cloud past) in
  match create_simulation_job cloud (past ++ [EvGmtime]) req with
  | Ret response =>
      (Ret (responses ++ [response]), [EvGmtime; EvCreateSimulationJob req])
  | Raise e => (Raise e, [EvGmtime; EvCreateSimulationJob req])
  end.
Proof.
  unfold body. rewrite run_bind, submit_simulation_job_run. cbv zeta.
  fold app. unfold training_job_request. fold app.
  by destruct (create_simulation_job cloud _ _).
Qed.


Lemma loop_all_return (xs : list nat) responses past :
  (∀ past' req, returns (create_simulation_job cloud past' req) = true) →
  ∃ more evs,
    run (for_each xs body responses) cloud past = (Ret (responses ++ more), evs)
    ∧ length more = length xs
    ∧ count_events is_create_simulation_job evs = length xs.
Proof.
  intros Hreturns. revert responses past.
  induction xs as [|x xs IH]; intros responses past.
  - exists [], []. by rewrite app_nil_r.
  - cbn [for_each]. rewrite run_bind, body_run. cbv zeta.
    match goal with |- context [create_simulation_job cloud ?p ?r] =>
      pose proof (Hreturns p r) as Hret;
      destruct (create_simulation_job cloud p r) as [response|e]; [|done]
    end.
    destruct (IH (responses ++ [response])
                 (past ++ [EvGmtime;
                           EvCreateSimulationJob
                             (training_job_request v s3_bucket role simulation_app_arn
                                n net (gmtime cloud past))]))
      as (more & evs & -> & Hlen & Hcount).
    exists (response :: more), ([EvGmtime;
                                 EvCreateSimulationJob
                                   (training_job_request v s3_bucket role
                                      simulation_app_arn n net (gmtime cloud past))]
                                ++ evs).
    split_and!.
    + by rewrite <- app_assoc.
    + simpl. by rewrite Hlen.
    + unfold count_events in *. simpl. by rewrite Hcount.
Qed.

(** Each creation call of the loop comes right after a clock read of its
    own, and its token is formatted from the answer to that read. *)
Lemma loop_pinned (xs : list nat) responses past before req after :
  (run (for_each xs body responses) cloud past).2
  = before ++ EvCreateSimulationJob req :: after →
  ∃ earlier,
    before = earlier ++ [EvGmtime] ∧
    req = training_job_request v s3_bucket role simulation_app_arn n net
            (gmtime cloud (past ++ earlier)).
Proof.
  revert responses past before.
  induction xs as [|x xs IH]; intros responses past before.
  { cbn. intros Hnil. by destruct before. }
  cbn [for_each]. rewrite run_bind, body_run. cbv zeta.
  set (req0 := training_job_request v s3_bucket role simulation_app_arn n net
                 (gmtime cloud past)).
  assert (∀ rest,
            EvGmtime :: EvCreateSimulationJob req0 :: rest
            = before ++ EvCreateSimulationJob req :: after →
            (before = [EvGmtime] ∧ req = req0)
            ∨ ∃ before', before = EvGmtime :: EvCreateSimulationJob req0 :: before'
                         ∧ rest = before' ++ EvCreateSimulationJob req :: after)
    as Hsplit.
  { intros rest Heq. destruct before as [|b0 [|b1 before']]; simplify_eq/=.
    - by left.
    - right. by eexists. }
  destruct (create_simulation_job cloud _ req0) as [response|e].
  - destruct (run (for_each xs body (responses ++ [response])) cloud
                  (past ++ [EvGmtime; EvCreateSimulationJob req0]))
      as [r evs] eqn:Hrest.
    cbn [fst snd app]. intros [[-> ->]|(before' & -> & Hevs)]%Hsplit.
    + exists []. by rewrite app_nil_r.
    + specialize (IH (responses ++ [response])
                     (past ++ [EvGmtime; EvCreateSimulationJob req0]) before').
      rewrite Hrest in IH. destruct (IH Hevs) as (earlier & -> & ->).
      exists (EvGmtime :: EvCreateSimulationJob req0 :: earlier).
      split; [done|]. by rewrite <- app_assoc.
  - cbn [fst snd]. intros [[-> ->]|(before' & -> & Hevs)]%Hsplit.
    + exists []. by rewrite app_nil_r.
    + by destruct before'.
Qed.

End launch.

Lemma count_events_app p evs evs' :
  count_events p (evs ++ evs') = count_events p evs + count_events p evs'.
Proof. unfold count_events. by rewrite List.filter_app, length_app. Qed.

Lemma count_events_none p evs :
  Forall (λ ev, p ev = false) evs → count_events p evs = 0.
Proof.
  unfold count_events. induction 1 as [|ev evs Hev _ IH]; [done|].
  simpl. by rewrite Hev.
Qed.

Lemma for_each_cons {A S} (x : A) xs (body : A → S → NB S) acc :
  for_each (x :: xs) body acc = (body x acc ≫= λ acc', for_each xs body acc').
Proof. done. Qed.

Lemma print_arns_run (arns : list string) cloud past :
  run (for_each arns (λ job_arn _, emit (EvPrint [PStr "Job ARN"; PStr job_arn])) ())
      cloud past
  = (Ret (), (λ job_arn, EvPrint [PStr "Job ARN"; PStr job_arn]) <$> arns).
Proof.
  revert past. induction arns as [|a arns IH]; intros past; [done|].
  rewrite for_each_cons, run_bind. unfold run at 1, emit.
  by rewrite IH.
Qed.

(** The events of the launch cell when the loop has run through. *)
Lemma launch_simulation_jobs_run n v s3_bucket role simulation_app_arn net cloud past
    responses evs :
  run (for_each (range n)
         (λ (job_no : nat) (responses : list ArnResponse),
            response ← submit_simulation_job v s3_bucket role
                         (training_application v s3_bucket simulation_app_arn n) net;
            mret (responses ++ [response]))
         []) cloud past = (Ret responses, evs) →
  run (launch_simulation_jobs n v s3_bucket role simulation_app_arn net) cloud past
  = (Ret (arn <$> responses),
     evs ++ [EvPrint [PStr "Created the following jobs:"]]
         ++ ((λ job_arn, EvPrint [PStr "Job ARN"; PStr job_arn]) <$> (arn <$> responses))).
Proof.
  intros Hloop. unfold launch_simulation_jobs.
  rewrite (run_bind_ret _ _ _ _ _ _ Hloop). cbn beta.
  rewrite run_emit_then.
  rewrite (run_bind_ret _ _ _ _ _ _ (print_arns_run _ _ _)), run_ret.
  cbn [fst snd]. by rewrite app_nil_r.
Qed.

Lemma create_in_prefix evs evs' before req after :
  Forall (λ ev, is_create_simulation_job ev = false) evs' →
  evs ++ evs' = before ++ EvCreateSimulationJob req :: after →
  ∃ after', evs = before ++ EvCreateSimulationJob req :: after'.
Proof.
  intros Hquiet. revert before. induction evs as [|ev evs IH]; intros before Heq.
  - simpl in Heq. subst evs'. apply Forall_app in Hquiet as [_ Hquiet].
    apply Forall_cons_1 in Hquiet as [Hreq _]. discriminate Hreq.
  - destruct before as [|b before]; simplify_eq/=; [by eexists|].
    destruct (IH before) as [after' ->]; [done|]. by eexists.
Qed.

(** C8: for a worker count [n] the launch cell submits [n] simulation-job
    requests (when each submission is answered).  Every request it submits
    comes right after a clock read of its own and is the one launch
    configuration with the token formatted from the answer to that read: the
    requests differ in the token at most.  Two requests whose reads fall
    within the same second carry the same token. *)
Theorem C8_simulation_job_requests n cloud past v s3_bucket role simulation_app_arn net :
  let request := training_job_request v s3_bucket role simulation_app_arn n net in
  let cell := launch_simulation_jobs n v s3_bucket role simulation_app_arn net in
  let trace := (run cell cloud past).2 in
  (∀ before req after,
     trace = before ++ EvCreateSimulationJob req :: after →
     ∃ earlier, before = earlier ++ [EvGmtime]
                ∧ req = request (gmtime cloud (past ++ earlier))) ∧
  ((∀ past' req, returns (create_simulation_job cloud past' req) = true) →
   count_events is_create_simulation_job trace = n ∧
   ∃ job_arns, (run cell cloud past).1 = Ret job_arns ∧ length job_arns = n) ∧
  (∀ t, clientRequestToken (request t) = strftime "%Y-%m-%d-%H-%M-%S" t) ∧
  (∀ earlier1 req1 after1 earlier2 req2 after2,
     trace = (earlier1 ++ [EvGmtime]) ++ EvCreateSimulationJob req1 :: after1 →
     trace = (earlier2 ++ [EvGmtime]) ++ EvCreateSimulationJob req2 :: after2 →
     same_second (gmtime cloud (past ++ earlier1)) (gmtime cloud (past ++ earlier2)) →
     clientRequestToken req1 = clientRequestToken req2 ∧ req1 = req2) ∧
  (∀ t1 t2, same_second t1 t2 →
            clientRequestToken (request t1) = clientRequestToken (request t2)
            ∧ request t1 = request t2).
Proof.
  intros request cell trace.
  assert (∀ t1 t2, same_second t1 t2 → request t1 = request t2) as Hcollide.
  { intros t1 t2 Hsame. unfold request, training_job_request.
    by rewrite (strftime_same_second _ t1 t2 Hsame). }
  assert (∀ before req after,
            trace = before ++ EvCreateSimulationJob req :: after →
            ∃ earlier, before = earlier ++ [EvGmtime]
                       ∧ req = request (gmtime cloud (past ++ earlier))) as Hpinned.
  { intros before req after. unfold trace, cell, launch_simulation_jobs.
    rewrite run_bind.
    destruct (run (for_each (range n) _ []) cloud past) as [[responses|e] evs] eqn:Hloop.
    - match goal with |- context [run ?m cloud (past ++ evs)] =>
        assert (Forall (λ ev, is_create_simulation_job ev = false)
                       (run m cloud (past ++ evs)).2) as Hquiet
          by (as_emits; emits_all; reflexivity);
        destruct (run m cloud (past ++ evs)) as [r evs']
      end.
      cbn [snd] in *. intros [after' Hevs]%create_in_prefix; [|done].
      apply (loop_pinned v s3_bucket role simulation_app_arn n net cloud
               (range n) [] past before req after').
      by rewrite Hloop.
    - cbn [snd]. intros Hevs.
      apply (loop_pinned v s3_bucket role simulation_app_arn n net cloud
               (range n) [] past before req after).
      by rewrite Hloop. }
  split_and!.
  - exact Hpinned.
  - intros Hreturns.
    destruct (loop_all_return v s3_bucket role simulation_app_arn n net cloud
                (range n) [] past Hreturns) as (more & evs & Hloop & Hlen & Hcount).
    unfold trace, cell. rewrite (launch_simulation_jobs_run _ _ _ _ _ _ _ _ _ _ Hloop).
    unfold range in *. rewrite length_seq in Hlen, Hcount.
    cbn [fst snd]. split.
    + rewrite !count_events_app, Hcount.
      rewrite (count_events_none _ (_ <$> _)); [done|].
      apply Forall_fmap, Forall_true. done.
    + exists (arn <$> ([] ++ more)). by rewrite length_fmap.
  - done.
  - intros earlier1 req1 after1 earlier2 req2 after2 H1 H2 Hsame.
    destruct (Hpinned _ _ _ H1) as (e1 & ->%(inj (λ l, l ++ [EvGmtime])) & ->).
    destruct (Hpinned _ _ _ H2) as (e2 & ->%(inj (λ l, l ++ [EvGmtime])) & ->).
    by rewrite (Hcollide _ _ Hsame).
  - intros t1 t2 Hsame. by rewrite (Hcollide _ _ Hsame).
Qed.

Lemma C8_simulation_job_requests_witness :
  let cell := launch_simulation_jobs 3 sample_variables "sagemaker-bucket" "role"
                "arn:app" sample_network in
  let trace := (run cell (healthy_account "us-west-2") []).2 in
  (count_events is_create_simulation_job trace = 3 ∧
   ∃ job_arns, (run cell (healthy_account "us-west-2") []).1 = Ret job_arns
               ∧ length job_arns = 3) ∧
  ∃ req1 req2 after,
    trace = [EvGmtime; EvCreateSimulationJob req1;
             EvGmtime; EvCreateSimulationJob req2] ++ after ∧
    clientRequestToken req1 = "2019-03-07-05-09-01" ∧
    clientRequestToken req1 = clientRequestToken req2.
Proof.
  intros cell trace.
  destruct (C8_simulation_job_requests 3 (healthy_account "us-west-2") []
              sample_variables "sagemaker-bucket" "role" "arn:app" sample_network)
    as (_ & Hcount & _ & Hcollide & _).
  split.
  - apply Hcount. intros past' req. reflexivity.
  - eexists _, _, _. split; [vm_compute; reflexivity|].
    split; [vm_compute; reflexivity|].
    eapply (Hcollide [] _ _ [EvGmtime; EvCreateSimulationJob _] _ _).
    + vm_compute. reflexivity.
    + vm_compute. reflexivity.
    + vm_compute. done.
Defined.

(** Under a clock that advances with every event, the three requests of a
    launch with three workers carry the times of their own reads. *)
Example tokens_follow_the_clock :
  omap (λ ev, match ev with
              | EvCreateSimulationJob req => Some (clientRequestToken req)
              | _ => None
              end)
       (run (launch_simulation_jobs 3 sample_variables "sagemaker-bucket" "role"
               "arn:app" sample_network) ticking_account []).2
  = ["2019-03-07-05-09-00"; "2019-03-07-05-09-02"; "2019-03-07-05-09-04"].
Proof. vm_compute. reflexivity. Qed.





(** ** The reward plot *)

Lemma is_Some_not_missing (row : gmap string string) :
  is_Some (row !! "Training Reward") ↔ ¬ missing row.
Proof.
  unfold missing. rewrite <- elem_of_dom.
  split; [tauto|]. intros H. by destruct (decide ("Training Reward" ∈ dom row)).
Qed.

Lemma dropna_rows name df :
  name ∈ columns df →
  dropna name df
  = Ret {| columns := columns df;
           rows := filter (λ row, is_Some (row !! name)) (rows df) |}.
Proof. intros H. unfold dropna. by rewrite decide_True. Qed.

Lemma dropna_missing_column name df :
  name ∉ columns df →
  dropna name df = Raise (KeyError ("[" +:+ py_repr name +:+ "]")).
Proof. intros H. unfold dropna. by rewrite decide_False. Qed.

Lemma length_kept_missing (table : list (gmap string string)) :
  length (filter (λ row, is_Some (row !! "Training Reward")) table)
  + length (filter missing table) = length table.
Proof.
  induction table as [|row table IH]; [done|].
  rewrite !filter_cons.
  destruct (decide (is_Some (row !! "Training Reward"))) as [Hsome|Hnone].
  - rewrite decide_False by (by apply is_Some_not_missing).
    simpl. by rewrite IH.
  - rewrite decide_True
      by (destruct (decide (missing row)) as [|H%is_Some_not_missing]; done).
    simpl. rewrite <- plus_n_Sm. by rewrite IH.
Qed.

(** The cell on a frame that has the reward column: one drawing call on the
    filtered frame, and the two labels when the drawing returns. *)
Lemma plot_training_reward_run df cloud past :
  "Training Reward" ∈ columns df →
  let kept := filter (λ row, is_Some (row !! "Training Reward")) (rows df) in
  let drawing := {| plot_data := {| columns := columns df; rows := kept |};
                    plot_x := "Episode #"; plot_y := "Training Reward";
                    figsize := (12, 5); legend := true; style := "b-" |} in
  run (plot_training_reward df) cloud past
  = match df_plot cloud past drawing with
    | Ret _ => (Ret tt, [EvPlot drawing; EvSetYLabel "Training Reward";
                         EvSetXLabel "Episode #"])
    | Raise e => (Raise e, [EvPlot drawing])
    end.
Proof.
  intros Hcol kept drawing. unfold plot_training_reward.
  rewrite (dropna_rows _ _ Hcol). fold kept.
  unfold run, lift, call, emit, mbind, nb_bind. cbn.
  rewrite app_nil_r. fold drawing.
  by destruct (df_plot cloud past drawing) as [[]|e].
Qed.

(** C9: given a loaded table with the column [Training Reward], the cell
    makes one drawing call, with the episode column on the x-axis and the
    reward column on the y-axis, on the table from which exactly the rows
    without a reward are gone, the rows that remain being in their input
    order. *)
Theorem C9_reward_plot df cloud past :
  "Training Reward" ∈ columns df →
  ∃ kept labels,
    (run (plot_training_reward df) cloud past).2
    = EvPlot {| plot_data := {| columns := columns df; rows := kept |};
                plot_x := "Episode #"; plot_y := "Training Reward";
                figsize := (12, 5); legend := true; style := "b-" |} :: labels ∧
    Forall (λ ev, is_plot ev = false) labels ∧
    kept `sublist_of` rows df ∧
    (∀ row, row ∈ kept ↔ row ∈ rows df ∧ ¬ missing row) ∧
    length kept + length (filter missing (rows df)) = length (rows df).
Proof.
  intros Hcol.
  exists (filter (λ row, is_Some (row !! "Training Reward")) (rows df)).
  rewrite (plot_training_reward_run _ _ _ Hcol).
  match goal with |- context [df_plot cloud past ?d] =>
    exists (match df_plot cloud past d with
            | Ret _ => [EvSetYLabel "Training Reward"; EvSetXLabel "Episode #"]
            | Raise _ => []
            end);
    destruct (df_plot cloud past d)
  end; cbn [snd].
  all: split_and!;
    [ done
    | repeat constructor
    | apply sublist_filter
    | intros row; rewrite list_elem_of_filter, is_Some_not_missing; tauto
    | apply length_kept_missing ].
Qed.

Lemma C9_reward_plot_witness :
  (run (plot_training_reward sample_metrics) (healthy_account "us-west-2") []).2
  = [EvPlot {| plot_data := {| columns := columns sample_metrics;
                               rows := [episode_2; episode_4] |};
               plot_x := "Episode #"; plot_y := "Training Reward";
               figsize := (12, 5); legend := true; style := "b-" |};
     EvSetYLabel "Training Reward"; EvSetXLabel "Episode #"] ∧
  [episode_2; episode_4] `sublist_of` rows sample_metrics ∧
  (∀ row, row ∈ [episode_2; episode_4]
          ↔ row ∈ rows sample_metrics ∧ ¬ missing row) ∧
  length [episode_2; episode_4]
  + length (filter missing (rows sample_metrics))
  = length (rows sample_metrics).
Proof.
  destruct (C9_reward_plot sample_metrics (healthy_account "us-west-2") [])
    as (kept & labels & Htrace & _ & Hsub & Hrows & Hlen).
  { apply (bool_decide_unpack _). vm_compute. exact I. }
  assert (kept = [episode_2; episode_4] ∧
          labels = [EvSetYLabel "Training Reward"; EvSetXLabel "Episode #"])
    as [-> ->].
  { vm_compute in Htrace. injection Htrace as <- <-. split; vm_compute; reflexivity. }
  split_and!; [exact Htrace | exact Hsub | exact Hrows | exact Hlen].
Defined.

(** The rows without a reward of the sample table are the first and the
    third; the second and the fourth are handed to the drawing call. *)
Example sample_plot :
  filter missing (rows sample_metrics) = [episode_1; episode_3] ∧
  run (plot_training_reward sample_metrics) (healthy_account "us-west-2") []
  = (Ret tt,
     [EvPlot {| plot_data := {| columns := ["Episode #"; "Training Iter";
                                            "Training Reward"];
                                rows := [episode_2; episode_4] |};
                plot_x := "Episode #"; plot_y := "Training Reward";
                figsize := (12, 5); legend := true; style := "b-" |};
      EvSetYLabel "Training Reward"; EvSetXLabel "Episode #"]).
Proof. split; vm_compute; reflexivity. Qed.


(** * Further properties of the cells *)

Lemma run_call {A} ev (f : Cloud → list Event → outcome A) cloud past :
  run (call ev f) cloud past = (f cloud past, [ev]).
Proof. done. Qed.

Lemma run_read_clock cloud past :
  run read_clock cloud past = (Ret (gmtime cloud past), [EvGmtime]).
Proof. done. Qed.

(** ** Create an IAM role *)

(** X1: the role cell asks the SDK first and falls back to the helper on
    any exception.  The helper is consulted only after a failure of the
    SDK lookup; the exception of that first lookup is discarded; the cell
    raises only when the helper raises too, and then with the helper's
    exception.  The role is printed only when one was found. *)
Theorem X1_role_fallback cloud past :
  (∀ role,
     sagemaker_get_execution_role cloud past = Ret role →
     run create_iam_role cloud past
     = (Ret role,
        [EvSagemakerGetExecutionRole; EvPrint [PStr ("Using IAM role arn: " +:+ role)]])) ∧
  (∀ e,
     sagemaker_get_execution_role cloud past = Raise e →
     run create_iam_role cloud past =
     match get_execution_role cloud (past ++ [EvSagemakerGetExecutionRole]) "sagemaker" with
     | Ret role =>
         (Ret role,
          [EvSagemakerGetExecutionRole; EvGetExecutionRole "sagemaker";
           EvPrint [PStr ("Using IAM role arn: " +:+ role)]])
     | Raise e' =>
         (Raise e', [EvSagemakerGetExecutionRole; EvGetExecutionRole "sagemaker"])
     end).
Proof.
  split.
  - intros role Hrole. unfold create_iam_role.
    rewrite run_bind, run_try_except. unfold run at 1, call.
    by rewrite Hrole.
  - intros e He. unfold create_iam_role.
    rewrite run_bind, run_try_except. unfold run at 1, call.
    rewrite He. unfold run at 1.
    by destruct (get_execution_role cloud _ "sagemaker").
Qed.

Lemma X1_role_fallback_witness :
  run create_iam_role (healthy_account "us-west-2") []
  = (Ret "arn:aws:iam::1:role/notebook",
     [EvSagemakerGetExecutionRole;
      EvPrint [PStr "Using IAM role arn: arn:aws:iam::1:role/notebook"]]) ∧
  run create_iam_role (local_machine (Ret "arn:aws:iam::1:role/sagemaker")) []
  = (Ret "arn:aws:iam::1:role/sagemaker",
     [EvSagemakerGetExecutionRole; EvGetExecutionRole "sagemaker";
      EvPrint [PStr "Using IAM role arn: arn:aws:iam::1:role/sagemaker"]]) ∧
  run create_iam_role (local_machine (Raise access_denied_error)) []
  = (Raise access_denied_error,
     [EvSagemakerGetExecutionRole; EvGetExecutionRole "sagemaker"]).
Proof.
  split_and!.
  - apply (proj1 (X1_role_fallback (healthy_account "us-west-2") [])). reflexivity.
  - apply (proj2 (X1_role_fallback (local_machine (Ret "arn:aws:iam::1:role/sagemaker")) [])
             (ClientError "The current AWS identity is not a role")).
    reflexivity.
  - apply (proj2 (X1_role_fallback (local_machine (Raise access_denied_error)) [])
             (ClientError "The current AWS identity is not a role")).
    reflexivity.
Defined.

(** ** Configure VPC *)

Lemma filter_head {A} (P : A → Prop) `{!∀ x, Decision (P x)} (l : list A) x rest :
  filter P l = x :: rest →
  ∃ before after, l = before ++ x :: after ∧ Forall (λ y, ¬ P y) before ∧ P x.
Proof.
  induction l as [|y l IH]; [done|].
  rewrite filter_cons. destruct (decide (P y)) as [Hy|Hy].
  - intros [= -> _]. by exists [], l.
  - intros (before & after & -> & Hbefore & Hx)%IH.
    exists (y :: before), after. by repeat constructor.
Qed.

Lemma configure_vpc_run cloud past :
  run configure_vpc cloud past =
  match describe_vpcs cloud past with
  | Raise e => (Raise e, [EvDescribeVpcs])
  | Ret vpcs =>
      match VpcId <$> filter (λ vpc, IsDefault vpc = true) vpcs with
      | [] => (Raise (IndexError "list index out of range"), [EvDescribeVpcs])
      | default_vpc :: _ =>
          match describe_security_groups cloud (past ++ [EvDescribeVpcs]) with
          | Raise e => (Raise e, [EvDescribeVpcs; EvDescribeSecurityGroups])
          | Ret groups =>
              match describe_subnets cloud
                      (past ++ [EvDescribeVpcs; EvDescribeSecurityGroups]) with
              | Raise e =>
                  (Raise e,
                   [EvDescribeVpcs; EvDescribeSecurityGroups; EvDescribeSubnets])
              | Ret subnets =>
                  let sgs := GroupId <$> filter (λ group, GroupName group = "default"
                                                   ∧ sg_VpcId group = default_vpc) groups in
                  let sns := SubnetId <$> filter (λ subnet, sn_VpcId subnet = default_vpc
                                                   ∧ DefaultForAz subnet = true) subnets in
                  (Ret {| default_vpc := default_vpc;
                          default_security_groups := sgs;
                          default_subnets := sns |},
                   [EvDescribeVpcs; EvDescribeSecurityGroups; EvDescribeSubnets;
                    EvPrint [PStr "Using default VPC:"; PStr default_vpc];
                    EvPrint [PStr "Using default security group:"; PList sgs];
                    EvPrint [PStr "Using default subnets:"; PList sns]])
              end
          end
      end
  end.
Proof.
  unfold configure_vpc. rewrite run_bind. unfold run at 1, call.
  destruct (describe_vpcs cloud past) as [vpcs|e]; [|done].
  rewrite run_bind.
  destruct (VpcId <$> filter (λ vpc, IsDefault vpc = true) vpcs) as [|vpc ids];
    [done|].
  unfold first_item. rewrite run_ret. cbn [app].
  rewrite app_nil_r, run_bind. unfold run at 1, call.
  destruct (describe_security_groups cloud (past ++ [EvDescribeVpcs])) as [groups|e];
    [|done].
  rewrite run_bind. unfold run at 1, call.
  rewrite <- app_assoc. cbn [app].
  by destruct (describe_subnets cloud _) as [subnets|e].
Qed.

(** X2: without a default VPC in the account the cell stops with an
    [IndexError] right after the VPC listing; security groups and subnets
    are not looked up and nothing is printed. *)
Theorem X2_no_default_vpc cloud past vpcs :
  describe_vpcs cloud past = Ret vpcs →
  Forall (λ vpc, IsDefault vpc = false) vpcs →
  run configure_vpc cloud past
  = (Raise (IndexError "list index out of range"), [EvDescribeVpcs]).
Proof.
  intros Hcall Hnone. rewrite configure_vpc_run, Hcall. clear Hcall.
  assert (filter (λ vpc, IsDefault vpc = true) vpcs = []) as ->; [|done].
  induction Hnone as [|vpc vpcs Hvpc _ IH]; [done|].
  rewrite filter_cons. rewrite decide_False by (by rewrite Hvpc). exact IH.
Qed.

Lemma X2_no_default_vpc_witness :
  run configure_vpc
      (account "us-west-2" (Ret [ {| VpcId := "vpc-1"; IsDefault := false |} ])
               (Ret sample_tables) (Ret ()) (Ret {| arn := "arn:job" |}))
      []
  = (Raise (IndexError "list index out of range"), [EvDescribeVpcs]).
Proof.
  apply (X2_no_default_vpc _ _ [ {| VpcId := "vpc-1"; IsDefault := false |} ]).
  - reflexivity.
  - repeat constructor.
Defined.

(** X3: when the cell returns, the VPC it chose is the first one of the
    listing that is flagged default, and the security groups and subnets it
    hands on are exactly those of the listings that belong to that VPC: the
    groups named [default], the subnets that are default for their zone. *)
Theorem X3_network_of_default_vpc cloud past net evs :
  run configure_vpc cloud past = (Ret net, evs) →
  ∃ vpcs groups subnets,
    describe_vpcs cloud past = Ret vpcs ∧
    describe_security_groups cloud (past ++ [EvDescribeVpcs]) = Ret groups ∧
    describe_subnets cloud (past ++ [EvDescribeVpcs; EvDescribeSecurityGroups])
    = Ret subnets ∧
    (∃ before vpc after,
       vpcs = before ++ vpc :: after ∧
       Forall (λ other, IsDefault other ≠ true) before ∧
       IsDefault vpc = true ∧ default_vpc net = VpcId vpc) ∧
    (∀ id, id ∈ default_security_groups net ↔
           ∃ group, group ∈ groups ∧ GroupId group = id ∧
                    GroupName group = "default" ∧ sg_VpcId group = default_vpc net) ∧
    (∀ id, id ∈ default_subnets net ↔
           ∃ subnet, subnet ∈ subnets ∧ SubnetId subnet = id ∧
                     sn_VpcId subnet = default_vpc net ∧ DefaultForAz subnet = true).
Proof.
  rewrite configure_vpc_run.
  destruct (describe_vpcs cloud past) as [vpcs|e]; [|done].
  destruct (filter (λ vpc, IsDefault vpc = true) vpcs) as [|vpc rest] eqn:Hfilter;
    [done|].
  cbn [fmap list_fmap].
  destruct (describe_security_groups cloud _) as [groups|e]; [|done].
  destruct (describe_subnets cloud _) as [subnets|e]; [|done].
  cbv zeta. intros [= <- _]. cbn [default_vpc default_security_groups default_subnets].
  exists vpcs, groups, subnets. split_and!; try done.
  - apply filter_head in Hfilter as (before & after & -> & Hbefore & Hvpc).
    by exists before, vpc, after.
  - intros id. rewrite list_elem_of_fmap. setoid_rewrite list_elem_of_filter.
    split.
    + intros (group & -> & [Hname Hvpc] & Hin). by exists group.
    + intros (group & Hin & <- & Hname & Hvpc). by exists group.
  - intros id. rewrite list_elem_of_fmap. setoid_rewrite list_elem_of_filter.
    split.
    + intros (subnet & -> & [Hvpc Haz] & Hin). by exists subnet.
    + intros (subnet & Hin & <- & Hvpc & Haz). by exists subnet.
Qed.

Example sample_network_found :
  (run configure_vpc (healthy_account "us-west-2") []).1 = Ret sample_network.
Proof. vm_compute. reflexivity. Qed.

Lemma X3_network_of_default_vpc_witness :
  ∃ vpcs groups subnets,
    describe_vpcs (healthy_account "us-west-2") [] = Ret vpcs ∧
    describe_security_groups (healthy_account "us-west-2") ([] ++ [EvDescribeVpcs])
    = Ret groups ∧
    describe_subnets (healthy_account "us-west-2")
      ([] ++ [EvDescribeVpcs; EvDescribeSecurityGroups]) = Ret subnets ∧
    (∃ before vpc after,
       vpcs = before ++ vpc :: after ∧
       Forall (λ other, IsDefault other ≠ true) before ∧
       IsDefault vpc = true ∧ default_vpc sample_network = VpcId vpc) ∧
    (∀ id, id ∈ default_security_groups sample_network ↔
           ∃ group, group ∈ groups ∧ GroupId group = id ∧
                    GroupName group = "default"
                    ∧ sg_VpcId group = default_vpc sample_network) ∧
    (∀ id, id ∈ default_subnets sample_network ↔
           ∃ subnet, subnet ∈ subnets ∧ SubnetId subnet = id ∧
                     sn_VpcId subnet = default_vpc sample_network
                     ∧ DefaultForAz subnet = true).
Proof.
  eapply (X3_network_of_default_vpc (healthy_account "us-west-2") [] sample_network).
  vm_compute. reflexivity.
Defined.

(** ** The S3 endpoint of the VPC, continued *)

(** X4: the endpoint step raises exactly when the creation call raised
    with a message that does not contain [RouteAlreadyExists].  What it
    raises is then the exception of the call itself, after one help text has
    been displayed: the permissions help when the message contains
    [UnauthorizedOperation], the manual instructions otherwise. *)
Theorem X4_endpoint_step_outcome cloud past aws_region role default_vpc route_tables :
  let req := vpc_endpoint_request aws_region default_vpc route_tables in
  let result := run (attach_s3_endpoint aws_region role default_vpc route_tables)
                    cloud past in
  (∀ e, result.1 = Raise e ↔
        create_vpc_endpoint cloud past req = Raise e
        ∧ PyStr.str_in "RouteAlreadyExists" (exc_str e) = false) ∧
  (∀ e, result.1 = Raise e →
        result.2 =
        [EvCreateVpcEndpoint req;
         EvDisplay (if PyStr.str_in "UnauthorizedOperation" (exc_str e)
                    then generate_help_for_s3_endpoint_permissions cloud role
                    else create_s3_endpoint_manually cloud aws_region default_vpc)]) ∧
  (returns result.1 = true → count_events is_display result.2 = 0).
Proof.
  intros req result. unfold result. rewrite attach_s3_endpoint_run. cbv zeta.
  fold req. destruct (create_vpc_endpoint cloud past req) as [[]|e0].
  { split_and!; [|done..]. intros e. split; [done|]. by intros [? _]. }
  destruct (PyStr.str_in "RouteAlreadyExists" (exc_str e0)) eqn:Hroute.
  { split_and!; [|done..]. intros e. split; [done|].
    intros [[= ->] He]. congruence. }
  destruct (PyStr.str_in "UnauthorizedOperation" (exc_str e0)) eqn:Hauth.
  - split_and!; [| |done].
    + intros e. split; [by intros [= <-]|by intros [[= ->] _]].
    + intros e [= <-]. by rewrite Hauth.
  - split_and!; [| |done].
    + intros e. split; [by intros [= <-]|by intros [[= ->] _]].
    + intros e [= <-]. by rewrite Hauth.
Qed.

Lemma X4_endpoint_step_outcome_witness :
  let result := run (attach_s3_endpoint "us-west-2" "role" "vpc-0" ["rtb-0"])
                    (account "us-west-2" (Ret sample_vpcs) (Ret sample_tables)
                             (Raise throttling_error) (Ret {| arn := "arn:job" |}))
                    [] in
  result.1 = Raise throttling_error ∧
  result.2 = [EvCreateVpcEndpoint (vpc_endpoint_request "us-west-2" "vpc-0" ["rtb-0"]);
              EvDisplay "manual us-west-2 vpc-0"].
Proof.
  intros result.
  destruct (X4_endpoint_step_outcome
              (account "us-west-2" (Ret sample_vpcs) (Ret sample_tables)
                       (Raise throttling_error) (Ret {| arn := "arn:job" |}))
              [] "us-west-2" "role" "vpc-0" ["rtb-0"]) as (Hraise & Htrace & _).
  assert (result.1 = Raise throttling_error) as Hresult.
  { apply Hraise. split; [reflexivity | vm_compute; reflexivity]. }
  split; [exact Hresult|]. apply (Htrace _ Hresult).
Defined.

Lemma attach_s3_endpoint_trace aws_region role default_vpc route_tables cloud past :
  ∃ ev, (run (attach_s3_endpoint aws_region role default_vpc route_tables) cloud past).2
        = [EvCreateVpcEndpoint (vpc_endpoint_request aws_region default_vpc route_tables);
           ev]
        ∧ is_create_vpc_endpoint ev = false.
Proof.
  rewrite attach_s3_endpoint_run. cbv zeta.
  destruct (create_vpc_endpoint cloud past _) as [[]|e]; [by eexists|].
  destruct (PyStr.str_in "RouteAlreadyExists" (exc_str e)); [by eexists|].
  destruct (PyStr.str_in "UnauthorizedOperation" (exc_str e)); by eexists.
Qed.

Lemma create_s3_endpoint_run aws_region role default_vpc cloud past :
  run (create_s3_endpoint aws_region role default_vpc) cloud past =
  match describe_route_tables cloud past with
  | Raise e =>
      (Raise e,
       [EvDescribeRouteTables;
        EvDisplay (if PyStr.str_in "UnauthorizedOperation" (exc_str e)
                   then generate_help_for_s3_endpoint_permissions cloud role
                   else create_s3_endpoint_manually cloud aws_region default_vpc)])
  | Ret tables =>
      let ids := RouteTableId <$> filter (λ route_table, rt_VpcId route_table = default_vpc)
                                         tables in
      let seen := [EvDescribeRouteTables;
                   EvPrint [PStr "Trying to attach S3 endpoints to the following route tables:";
                            PList ids]] in
      match ids with
      | [] => (Raise (AssertionError no_route_tables_message), seen)
      | _ =>
          let attached := run (attach_s3_endpoint aws_region role default_vpc ids)
                              cloud (past ++ seen) in
          (attached.1, seen ++ attached.2)
      end
  end.
Proof.
  unfold create_s3_endpoint. rewrite run_bind, find_route_tables_run.
  destruct (describe_route_tables cloud past) as [tables|e]; [|done].
  cbv zeta. rewrite run_emit_then.
  destruct (RouteTableId <$> filter _ tables) as [|id ids] eqn:Hids; [done|].
  rewrite run_bind. unfold assert.
  rewrite bool_decide_true by (simpl; lia). rewrite run_ret.
  rewrite app_nil_r, <- app_assoc. cbn [app fst snd].
  by destruct (run (attach_s3_endpoint _ _ _ _) cloud _).
Qed.

(** X5: the cell attempts the endpoint creation at most once, and it does
    so exactly when the route-table listing was answered and has an entry
    for the VPC.  The one request then names all route tables of the VPC,
    in listing order, and the S3 service of the region. *)
Theorem X5_endpoint_attempt cloud past aws_region role default_vpc :
  let trace := (run (create_s3_endpoint aws_region role default_vpc) cloud past).2 in
  count_events is_create_vpc_endpoint trace ≤ 1 ∧
  (count_events is_create_vpc_endpoint trace = 1 ↔
   ∃ tables, describe_route_tables cloud past = Ret tables ∧
             filter (λ route_table, rt_VpcId route_table = default_vpc) tables ≠ []) ∧
  (∀ req, EvCreateVpcEndpoint req ∈ trace →
     ∃ tables, describe_route_tables cloud past = Ret tables ∧
       RouteTableIds req
       = RouteTableId <$> filter (λ route_table, rt_VpcId route_table = default_vpc) tables ∧
       ep_VpcId req = default_vpc ∧
       ServiceName req = "com.amazonaws." +:+ aws_region +:+ ".s3").
Proof.
  intros trace. unfold trace. rewrite create_s3_endpoint_run.
  destruct (describe_route_tables cloud past) as [tables|e].
  2:{ split_and!; [by vm_compute; lia| |].
      - split; [done|]. by intros (? & ? & _).
      - intros req Hin. apply elem_of_cons in Hin as [?|Hin]; [done|].
        by apply list_elem_of_singleton in Hin. }
  cbv zeta.
  destruct (filter (λ route_table, rt_VpcId route_table = default_vpc) tables)
    as [|table rest] eqn:Hfilter.
  { cbn [fmap list_fmap]. split_and!; [by vm_compute; lia| |].
    - split; [done|]. intros (? & [= <-] & Hne). by rewrite Hfilter in Hne.
    - intros req Hin. apply elem_of_cons in Hin as [?|Hin]; [done|].
      by apply list_elem_of_singleton in Hin. }
  rewrite <- Hfilter.
  destruct (RouteTableId <$> filter _ tables) as [|id ids] eqn:Hids.
  { rewrite Hfilter in Hids. done. }
  cbn [snd].
  destruct (attach_s3_endpoint_trace aws_region role default_vpc (id :: ids) cloud
              (past ++ [EvDescribeRouteTables;
                        EvPrint [PStr "Trying to attach S3 endpoints to the following route tables:";
                                 PList (id :: ids)]]))
    as (ev & -> & Hev).
  assert (count_events is_create_vpc_endpoint
            ([EvDescribeRouteTables;
              EvPrint [PStr "Trying to attach S3 endpoints to the following route tables:";
                       PList (id :: ids)]]
             ++ [EvCreateVpcEndpoint (vpc_endpoint_request aws_region default_vpc (id :: ids));
                 ev]) = 1) as Hcount.
  { unfold count_events. simpl. by rewrite Hev. }
  split_and!.
  - by rewrite Hcount.
  - split; [|done]. intros _. exists tables. split; [done|]. by rewrite Hfilter.
  - intros req Hin. exists tables. split; [done|].
    rewrite !elem_of_app, !elem_of_cons, !elem_of_nil in Hin.
    destruct Hin as [[?|[?|?]]|[Hin|[Hin|?]]]; try done.
    + by injection Hin as ->.
    + subst ev. discriminate Hev.
Qed.

Lemma X5_endpoint_attempt_witness :
  count_events is_create_vpc_endpoint
    (run (create_s3_endpoint "us-west-2" "role" "vpc-0") (healthy_account "us-west-2") []).2
  = 1.
Proof.
  apply (proj1 (proj2 (X5_endpoint_attempt (healthy_account "us-west-2") []
                         "us-west-2" "role" "vpc-0"))).
  exists sample_tables. split; [reflexivity | vm_compute; discriminate].
Defined.

(** ** Create Simulation Application *)

(** X6: the application is registered under a name made of the fixed stem
    and the time of a fresh clock read.  When the registration is answered
    the cell returns the ARN of the answer; when it raises, the cell raises
    that same exception whatever its message, and the permissions help is
    displayed first exactly when the message contains
    [AccessDeniedException]. *)
Theorem X6_simulation_app_outcome cloud past s3_bucket role :
  let req := simulation_application_request
               ("deepracer-sample-application"
                +:+ strftime "%y%m%d-%H%M%S" (gmtime cloud past)) s3_bucket in
  let answer := create_simulation_application cloud (past ++ [EvGmtime]) req in
  let result := run (create_simulation_app s3_bucket role) cloud past in
  (∀ response, answer = Ret response →
     result = (Ret (arn response),
               [EvGmtime; EvCreateSimulationApplication req;
                EvPrint [PStr "Created a new simulation app with ARN:";
                         PStr (arn response)]])) ∧
  (∀ e, answer = Raise e →
     result = (Raise e,
               [EvGmtime; EvCreateSimulationApplication req]
               ++ if PyStr.str_in "AccessDeniedException" (exc_str e)
                  then [EvDisplay (generate_help_for_robomaker_all_permissions cloud role)]
                  else [])).
Proof.
  intros req answer result. unfold result, create_simulation_app.
  rewrite run_bind, run_read_clock. fold req.
  rewrite run_try_except, run_bind, run_call. fold answer.
  split.
  - intros response ->. reflexivity.
  - intros e ->.
    by destruct (PyStr.str_in "AccessDeniedException" (exc_str e)).
Qed.

Lemma X6_simulation_app_outcome_witness :
  run (create_simulation_app "sagemaker-bucket" "role") (healthy_account "us-west-2") []
  = (Ret "arn:app",
     [EvGmtime;
      EvCreateSimulationApplication
        (simulation_application_request "deepracer-sample-application190307-050901"
           "sagemaker-bucket");
      EvPrint [PStr "Created a new simulation app with ARN:"; PStr "arn:app"]]) ∧
  run (create_simulation_app "sagemaker-bucket" "role")
      (local_machine (Ret "arn:aws:iam::1:role/sagemaker")) []
  = (Raise access_denied_error,
     [EvGmtime;
      EvCreateSimulationApplication
        (simulation_application_request "deepracer-sample-application190307-050901"
           "sagemaker-bucket");
      EvDisplay "robomaker role"]).
Proof.
  split.
  - apply (proj1 (X6_simulation_app_outcome (healthy_account "us-west-2") []
                    "sagemaker-bucket" "role") {| arn := "arn:app" |}).
    reflexivity.
  - apply (proj2 (X6_simulation_app_outcome
                    (local_machine (Ret "arn:aws:iam::1:role/sagemaker")) []
                    "sagemaker-bucket" "role") access_denied_error).
    reflexivity.
Defined.

(** ** Clean Up *)

Lemma cancel_cons_run job_arn job_arns cloud past :
  run (cancel_simulation_jobs (job_arn :: job_arns)) cloud past =
  match cancel_simulation_job cloud past job_arn with
  | Raise e => (Raise e, [EvCancelSimulationJob job_arn])
  | Ret _ =>
      let rest := run (cancel_simulation_jobs job_arns) cloud
                      (past ++ [EvCancelSimulationJob job_arn]) in
      (rest.1, EvCancelSimulationJob job_arn :: rest.2)
  end.
Proof.
  unfold cancel_simulation_jobs. rewrite for_each_cons, run_bind.
  unfold run at 1, call.
  destruct (cancel_simulation_job cloud past job_arn) as [[]|e]; [|done].
  by destruct (run (for_each job_arns _ _) cloud _).
Qed.

(** X7: the cleanup loop cancels the jobs in list order and stops at the
    first cancel call that raises.  When it returns, every job of the list
    has been asked to cancel, once, in order.  When it raises, the jobs up
    to and including the failing one have been asked and the jobs behind it
    have not; the exception is the one of the failing call. *)
Theorem X7_cancel_in_order job_arns cloud past :
  let result := run (cancel_simulation_jobs job_arns) cloud past in
  (returns result.1 = true →
   result.2 = EvCancelSimulationJob <$> job_arns) ∧
  (∀ e, result.1 = Raise e →
     ∃ cancelled job behind,
       job_arns = cancelled ++ job :: behind ∧
       result.2 = EvCancelSimulationJob <$> (cancelled ++ [job]) ∧
       cancel_simulation_job cloud (past ++ (EvCancelSimulationJob <$> cancelled)) job
       = Raise e) ∧
  ((∀ past' job, returns (cancel_simulation_job cloud past' job) = true) →
   returns result.1 = true).
Proof.
  revert past. induction job_arns as [|job_arn job_arns IH]; intros past result.
  { split_and!; [done| |done]. intros e. by unfold result. }
  unfold result. rewrite cancel_cons_run.
  destruct (cancel_simulation_job cloud past job_arn) as [[]|e0] eqn:Hcall.
  - destruct (IH (past ++ [EvCancelSimulationJob job_arn])) as (Hall & Hfail & Hok).
    cbv zeta. cbn [fst snd]. split_and!.
    + intros Hret. rewrite (Hall Hret). done.
    + intros e He.
      destruct (Hfail e He) as (cancelled & job & behind & -> & -> & Hjob).
      exists (job_arn :: cancelled), job, behind. split_and!; [done..|].
      rewrite <- app_assoc in Hjob. exact Hjob.
    + done.
  - split_and!; [done| |].
    + intros e [= <-]. exists [], job_arn, job_arns.
      by rewrite app_nil_r.
    + intros Hok. specialize (Hok past job_arn). by rewrite Hcall in Hok.
Qed.

Lemma X7_cancel_in_order_witness :
  let result := run (cancel_simulation_jobs ["arn:job-1"; "arn:job-2"; "arn:job-3"])
                    (local_machine (Ret "role")) [] in
  ∃ cancelled job behind,
    ["arn:job-1"; "arn:job-2"; "arn:job-3"] = cancelled ++ job :: behind ∧
    result.2 = EvCancelSimulationJob <$> (cancelled ++ [job]) ∧
    cancel_simulation_job (local_machine (Ret "role"))
      ([] ++ (EvCancelSimulationJob <$> cancelled)) job
    = Raise throttling_error.
Proof.
  intros result.
  apply (proj1 (proj2 (X7_cancel_in_order ["arn:job-1"; "arn:job-2"; "arn:job-3"]
                         (local_machine (Ret "role")) []))).
  vm_compute. reflexivity.
Defined.

Example cancel_stops_at_failure :
  run (cancel_simulation_jobs ["arn:job-1"; "arn:job-2"; "arn:job-3"])
      (local_machine (Ret "role")) []
  = (Raise throttling_error,
     [EvCancelSimulationJob "arn:job-1"; EvCancelSimulationJob "arn:job-2"]).
Proof. vm_compute. reflexivity. Qed.

(** ** Launching the simulation jobs: failures and counts *)

Section launch_outcome.
Variables (v : Variables) (s3_bucket role simulation_app_arn : string).
Variables (n : nat) (net : Network) (cloud : Cloud).

Let body := λ (job_no : nat) (responses : list ArnResponse),
  response ← submit_simulation_job v s3_bucket role
               (training_application v s3_bucket simulation_app_arn n) net;
  mret (responses ++ [response]).


End launch_outcome.







(** ** Idempotency tokens *)

Lemma string_length_app (s1 s2 : string) :
  String.length (s1 +:+ s2) = String.length s1 + String.length s2.
Proof.
  induction s1 as [|c s1 IH]; [done|].
  change (S (String.length (s1 +:+ s2)) = S (String.length s1 + String.length s2)).
  by rewrite IH.
Qed.

Lemma string_app_nil_r (s : string) : s +:+ EmptyString = s.
Proof.
  induction s as [|c s IH]; [done|].
  change (String c (s +:+ EmptyString) = String c s). by rewrite IH.
Qed.

Lemma string_app_inj_length (s1 s2 r1 r2 : string) :
  String.length s1 = String.length s2 →
  s1 +:+ r1 = s2 +:+ r2 → s1 = s2 ∧ r1 = r2.
Proof.
  revert s2. induction s1 as [|c s1 IH]; intros [|d s2] Hlen Heq; try done.
  change (String c (s1 +:+ r1) = String d (s2 +:+ r2)) in Heq.
  injection Heq as -> Heq. injection Hlen as Hlen.
  by destruct (IH s2 Hlen Heq) as [-> ->].
Qed.

(** Below one hundred the two-digit directives give two characters, and
    different numbers give different texts. *)
Lemma pad2_two_digits n m :
  n < 100 → m < 100 →
  String.length (PyStr.pad2 n) = 2 ∧ (PyStr.pad2 n = PyStr.pad2 m → n = m).
Proof.
  intros Hn Hm.
  assert (Forall (λ n, String.length (PyStr.pad2 n) = 2
                       ∧ Forall (λ m, PyStr.pad2 n = PyStr.pad2 m → n = m) (seq 0 100))
                 (seq 0 100)) as Hall.
  { apply (bool_decide_unpack _). vm_compute. exact I. }
  rewrite Forall_forall in Hall.
  destruct (Hall n) as [Hlen Hinj]; [apply elem_of_seq; lia|].
  split; [done|]. rewrite Forall_forall in Hinj. apply Hinj, elem_of_seq. lia.
Qed.

Lemma token_shape t :
  strftime "%Y-%m-%d-%H-%M-%S" t =
  pretty (tm_year t) +:+ "-" +:+ PyStr.pad2 (tm_mon t) +:+ "-" +:+ PyStr.pad2 (tm_mday t)
  +:+ "-" +:+ PyStr.pad2 (tm_hour t) +:+ "-" +:+ PyStr.pad2 (tm_min t)
  +:+ "-" +:+ PyStr.pad2 (tm_sec t).
Proof.
  cbn -[PyStr.pad2 pretty String.append].
  by rewrite string_app_nil_r.
Qed.

Lemma field_inj a b (r1 r2 : string) :
  a < 100 → b < 100 →
  PyStr.pad2 a +:+ r1 = PyStr.pad2 b +:+ r2 → a = b ∧ r1 = r2.
Proof.
  intros Ha Hb Heq.
  destruct (pad2_two_digits a b Ha Hb) as [Hlena Hinj].
  destruct (pad2_two_digits b a Hb Ha) as [Hlenb _].
  apply string_app_inj_length in Heq as [Hab ->]; [|congruence].
  auto.
Qed.

Lemma dash_inj (r1 r2 : string) : "-" +:+ r1 = "-" +:+ r2 → r1 = r2.
Proof. intros Heq. by injection Heq. Qed.

Lemma token_tail_length t :
  in_calendar_range t →
  String.length ("-" +:+ PyStr.pad2 (tm_mon t) +:+ "-" +:+ PyStr.pad2 (tm_mday t)
                 +:+ "-" +:+ PyStr.pad2 (tm_hour t) +:+ "-" +:+ PyStr.pad2 (tm_min t)
                 +:+ "-" +:+ PyStr.pad2 (tm_sec t)) = 15.
Proof.
  intros (Hmon & Hday & Hhour & Hmin & Hsec).
  rewrite !string_length_app.
  destruct (pad2_two_digits (tm_mon t) 0) as [-> _]; [lia..|].
  destruct (pad2_two_digits (tm_mday t) 0) as [-> _]; [lia..|].
  destruct (pad2_two_digits (tm_hour t) 0) as [-> _]; [lia..|].
  destruct (pad2_two_digits (tm_min t) 0) as [-> _]; [lia..|].
  destruct (pad2_two_digits (tm_sec t) 0) as [-> _]; [lia..|].
  done.
Qed.

(** X10: the tokens of two clock reads are equal only if the reads fall
    within the same second: for times in the calendar ranges, equal tokens
    mean equal year, month, day, hour, minute and second. *)
Theorem X10_equal_tokens_same_second t1 t2 :
  in_calendar_range t1 → in_calendar_range t2 →
  strftime "%Y-%m-%d-%H-%M-%S" t1 = strftime "%Y-%m-%d-%H-%M-%S" t2 →
  same_second t1 t2.
Proof.
  intros Hr1 Hr2. rewrite !token_shape. intros Heq.
  pose proof (token_tail_length t1 Hr1) as Hlen1.
  pose proof (token_tail_length t2 Hr2) as Hlen2.
  destruct Hr1 as (Hmon1 & Hday1 & Hhour1 & Hmin1 & Hsec1).
  destruct Hr2 as (Hmon2 & Hday2 & Hhour2 & Hmin2 & Hsec2).
  apply string_app_inj_length in Heq as [Hyear Heq].
  2:{ apply (f_equal String.length) in Heq.
      rewrite !(string_length_app (pretty _)) in Heq. lia. }
  apply (inj pretty) in Hyear.
  apply dash_inj, field_inj in Heq as [Hmon Heq]; [|lia..].
  apply dash_inj, field_inj in Heq as [Hday Heq]; [|lia..].
  apply dash_inj, field_inj in Heq as [Hhour Heq]; [|lia..].
  apply dash_inj, field_inj in Heq as [Hmin Heq]; [|lia..].
  apply dash_inj in Heq.
  destruct (pad2_two_digits (tm_sec t1) (tm_sec t2)) as [_ Hsec]; [lia..|].
  unfold same_second. split_and!; auto.
Qed.

Lemma X10_equal_tokens_same_second_witness :
  same_second launch_time launch_time.
Proof.
  apply X10_equal_tokens_same_second; [vm_compute; lia.. | reflexivity].
Defined.

Example tokens_a_second_apart :
  strftime "%Y-%m-%d-%H-%M-%S" launch_time = "2019-03-07-05-09-01" ∧
  strftime "%Y-%m-%d-%H-%M-%S" a_second_later = "2019-03-07-05-09-02".
Proof. vm_compute. done. Qed.

(** ** The reward plot: failures *)

(** X11: a table without the reward column is refused by [dropna] with a
    [KeyError] whose text is the list of the names not found, before
    anything is drawn.  With the column there is exactly one drawing call;
    an exception of that call is the exception of the cell, and the axis
    labels are set when, and only when, the call returns. *)
Theorem X11_plot_failures df cloud past :
  ("Training Reward" ∉ columns df →
   run (plot_training_reward df) cloud past
   = (Raise (KeyError "['Training Reward']"), [])) ∧
  (∀ df', dropna "Training Reward" df = Ret df' →
     let drawing := {| plot_data := df'; plot_x := "Episode #";
                       plot_y := "Training Reward";
                       figsize := (12, 5); legend := true; style := "b-" |} in
     count_events is_plot (run (plot_training_reward df) cloud past).2 = 1 ∧
     (∀ e, df_plot cloud past drawing = Raise e →
           run (plot_training_reward df) cloud past = (Raise e, [EvPlot drawing])) ∧
     (returns (df_plot cloud past drawing) = true →
      run (plot_training_reward df) cloud past
      = (Ret tt, [EvPlot drawing; EvSetYLabel "Training Reward";
                  EvSetXLabel "Episode #"]))).
Proof.
  split.
  - intros Hcol. unfold plot_training_reward.
    by rewrite (dropna_missing_column _ _ Hcol).
  - intros df' Hdrop drawing.
    destruct (decide ("Training Reward" ∈ columns df)) as [Hcol|Hcol];
      [|by rewrite (dropna_missing_column _ _ Hcol) in Hdrop].
    rewrite (plot_training_reward_run _ _ _ Hcol). cbv zeta.
    rewrite (dropna_rows _ _ Hcol) in Hdrop. injection Hdrop as Hdrop.
    rewrite Hdrop. fold drawing.
    by destruct (df_plot cloud past drawing) as [[]|e0]; split_and!;
      [reflexivity | intros e [=] | intros _; reflexivity
      |reflexivity | intros e [= <-] | intros [=]].
Qed.

Lemma X11_plot_failures_witness :
  run (plot_training_reward metrics_without_reward_column)
      (healthy_account "us-west-2") []
  = (Raise (KeyError "['Training Reward']"), []) ∧
  run (plot_training_reward sample_metrics) (healthy_account "us-west-2") []
  = (Ret tt,
     [EvPlot {| plot_data := {| columns := columns sample_metrics;
                                rows := [episode_2; episode_4] |};
                plot_x := "Episode #"; plot_y := "Training Reward";
                figsize := (12, 5); legend := true; style := "b-" |};
      EvSetYLabel "Training Reward"; EvSetXLabel "Episode #"]).
Proof.
  split.
  - apply (proj1 (X11_plot_failures metrics_without_reward_column
                    (healthy_account "us-west-2") [])).
    apply (bool_decide_unpack _). vm_compute. exact I.
  - apply (proj2 (X11_plot_failures sample_metrics (healthy_account "us-west-2") [])
                 {| columns := columns sample_metrics;
                    rows := [episode_2; episode_4] |}).
    + vm_compute. reflexivity.
    + reflexivity.
Defined.

Lemma dropna_idempotent name df df' :
  dropna name df = Ret df' → dropna name df' = Ret df'.
Proof.
  unfold dropna. destruct (decide (name ∈ columns df)) as [Hcol|]; [|done].
  intros [= <-]. cbn [columns rows]. rewrite decide_True by done.
  f_equal. f_equal. apply list_filter_filter_l. done.
Qed.

(** X12: the figure depends on the rows with a reward only: a table from
    which the rows without a reward have already been dropped gives the same
    figure, or the same failure, as the table it came from. *)
Theorem X12_plot_of_filtered_table df df' :
  dropna "Training Reward" df = Ret df' →
  plot_training_reward df' = plot_training_reward df.
Proof.
  intros Hdrop. unfold plot_training_reward.
  by rewrite (dropna_idempotent _ _ _ Hdrop), Hdrop.
Qed.

Lemma X12_plot_of_filtered_table_witness :
  plot_training_reward
    {| columns := columns sample_metrics;
       rows := [episode_2; episode_4] |}
  = plot_training_reward sample_metrics.
Proof.
  apply (X12_plot_of_filtered_table sample_metrics). vm_compute. reflexivity.
Defined.

(** ** The order of the service calls *)

Lemma staged_weaken {A} lo hi lo' hi' (m : NB A) :
  staged lo hi m → lo' ≤ lo → hi ≤ hi' → staged lo' hi' m.
Proof.
  intros Hm Hlo Hhi cloud past. destruct (Hm cloud past) as [Hsorted Hbounds].
  split; [done|]. eapply Forall_impl; [exact Hbounds|]. simpl. lia.
Qed.

Lemma staged_silent {A} lo hi (m : NB A) :
  emits (λ ev, phase ev = None) m → staged lo hi m.
Proof.
  intros Hm cloud past. specialize (Hm cloud past).
  assert (omap phase (run m cloud past).2 = []) as ->; [|by repeat constructor].
  induction Hm as [|ev evs Hev _ IH]; [done|]. simpl. by rewrite Hev.
Qed.

Lemma staged_call {A} p ev (f : Cloud → list Event → outcome A) :
  phase ev = Some p → staged p p (call ev f).
Proof.
  intros Hev cloud past. rewrite run_call. simpl. rewrite Hev.
  split; repeat constructor; lia.
Qed.

Lemma staged_events lo mid hi (evs evs' : list Event) :
  StronglySorted le (omap phase evs) ∧ Forall (λ p, lo ≤ p ≤ mid) (omap phase evs) →
  StronglySorted le (omap phase evs') ∧ Forall (λ p, mid ≤ p ≤ hi) (omap phase evs') →
  lo ≤ mid → mid ≤ hi →
  StronglySorted le (omap phase (evs ++ evs'))
  ∧ Forall (λ p, lo ≤ p ≤ hi) (omap phase (evs ++ evs')).
Proof.
  intros [Hs1 Hb1] [Hs2 Hb2] Hlo Hhi. rewrite omap_app. split.
  - apply StronglySorted_app_2; [|done..].
    rewrite Forall_forall in Hb1, Hb2. intros p1 p2 Hp1 Hp2.
    specialize (Hb1 p1 Hp1). specialize (Hb2 p2 Hp2). simpl in *. lia.
  - apply Forall_app. split; (eapply Forall_impl; [eassumption|]); simpl; lia.
Qed.

Lemma staged_bind {A B} lo mid hi (m : NB A) (k : A → NB B) :
  staged lo mid m → (∀ a, staged mid hi (k a)) → lo ≤ mid → mid ≤ hi →
  staged lo hi (m ≫= k).
Proof.
  intros Hm Hk Hlo Hhi cloud past. rewrite run_bind.
  specialize (Hm cloud past). destruct (run m cloud past) as [[a|e] evs].
  - specialize (Hk a cloud (past ++ evs)).
    destruct (run (k a) cloud (past ++ evs)) as [r evs']. cbn [snd] in *.
    by apply (staged_events lo mid hi).
  - cbn [snd] in *. destruct Hm as [Hs Hb]. split; [done|].
    eapply Forall_impl; [exact Hb|]. simpl. lia.
Qed.

Lemma staged_try_except {A} p (m : NB A) (h : PyExc → NB A) :
  staged p p m → (∀ e, staged p p (h e)) → staged p p (try_except m h).
Proof.
  intros Hm Hh cloud past. rewrite run_try_except.
  specialize (Hm cloud past). destruct (run m cloud past) as [[a|e] evs]; [done|].
  specialize (Hh e cloud (past ++ evs)).
  destruct (run (h e) cloud (past ++ evs)) as [r evs']. cbn [snd] in *.
  by apply (staged_events p p p).
Qed.

Lemma staged_for_each {A S} p (xs : list A) (body : A → S → NB S) acc :
  (∀ x s, staged p p (body x s)) → staged p p (for_each xs body acc).
Proof.
  intros Hbody. revert acc. induction xs as [|x xs IH]; intros acc.
  - apply staged_silent, emits_ret.
  - rewrite for_each_cons. by apply (staged_bind p p p).
Qed.

Lemma staged_if {A} lo hi (b : bool) (m1 m2 : NB A) :
  staged lo hi m1 → staged lo hi m2 → staged lo hi (if b then m1 else m2).
Proof. by destruct b. Qed.

(** A computation all of whose service calls belong to stage [p]. *)
Ltac staged_one p :=
  repeat lazymatch goal with
  | |- staged _ _ (_ ≫= _) => apply (staged_bind p p p); [|intros ?|lia|lia]
  | |- staged _ _ (try_except _ _) => apply staged_try_except; [|intros ?]
  | |- staged _ _ (for_each _ _ _) => apply staged_for_each; intros ? ?
  | |- staged _ _ (if _ then _ else _) => apply staged_if
  | |- staged _ _ (call _ _) =>
      first [ apply staged_call; reflexivity
            | apply staged_silent; emits_all; reflexivity ]
  | |- staged _ _ _ => apply staged_silent; emits_all; reflexivity
  end.

Lemma cells_staged :
  staged 0 1 setup_s3_bucket ∧
  (∀ p, staged 1 1 (define_variables p)) ∧
  staged 2 2 create_iam_role ∧
  (∀ role, staged 2 2 (permission_setup role)) ∧
  staged 3 5 configure_vpc ∧
  (∀ region role vpc, staged 6 7 (create_s3_endpoint region role vpc)) ∧
  staged 7 7 show_preset ∧
  (∀ b p, staged 7 7 (upload_environment b p)) ∧
  (∀ v b p role net, staged 8 8 (train v b p role net)) ∧
  (∀ b, staged 8 8 (upload_bundle b)) ∧
  (∀ b role, staged 9 9 (create_simulation_app b role)) ∧
  (∀ n v b role app net, staged 10 10 (launch_simulation_jobs n v b role app net)) ∧
  (∀ arns region, staged 10 10 (show_links arns region)) ∧
  (∀ name, staged 10 10 (make_tmp_dir name)) ∧
  (∀ b d k, staged 11 11 (plot_metrics b d k)) ∧
  (∀ arns, staged 12 12 (cancel_simulation_jobs arns)) ∧
  (∀ name, staged 13 13 (stop_training name)) ∧
  (∀ v b role app net, staged 14 14 (evaluate v b role app net)) ∧
  (∀ app, staged 15 15 (delete_simulation_app app)).
Proof.
  split_and!; intros.
  - unfold setup_s3_bucket.
    apply (staged_bind 0 0 1); [staged_one 0|intros ?|lia..]. staged_one 1.
    apply (staged_weaken 1 1); [staged_one 1|lia..].
  - unfold define_variables. staged_one 1.
  - unfold create_iam_role. staged_one 2.
  - unfold permission_setup. staged_one 2.
  - unfold configure_vpc.
    apply (staged_bind 3 3 5); [staged_one 3|intros ?|lia..].
    apply (staged_bind 3 3 5); [staged_one 3|intros ?|lia..].
    apply (staged_bind 3 4 5); [|intros ?|lia..].
    { apply (staged_weaken 4 4); [staged_one 4|lia..]. }
    apply (staged_bind 4 5 5); [|intros ?|lia..].
    { apply (staged_weaken 5 5); [staged_one 5|lia..]. }
    staged_one 5.
  - unfold create_s3_endpoint, find_route_tables, attach_s3_endpoint.
    apply (staged_bind 6 6 7); [staged_one 6|intros ?|lia..].
    apply (staged_bind 6 6 7); [staged_one 6|intros ?|lia..].
    apply (staged_bind 6 6 7); [staged_one 6|intros ?|lia..].
    apply (staged_weaken 7 7); [staged_one 7|lia..].
  - unfold show_preset. staged_one 7.
  - unfold upload_environment. staged_one 7.
  - unfold train. staged_one 8.
  - unfold upload_bundle. staged_one 8.
  - unfold create_simulation_app. staged_one 9.
  - unfold launch_simulation_jobs, submit_simulation_job. staged_one 10.
  - unfold show_links. staged_one 10.
  - unfold make_tmp_dir. staged_one 10.
  - unfold plot_metrics, plot_training_reward. staged_one 11.
  - unfold cancel_simulation_jobs. staged_one 12.
  - unfold stop_training. staged_one 13.
  - unfold evaluate, submit_simulation_job. staged_one 14.
  - unfold delete_simulation_app. staged_one 15.
Qed.

(** X13: in every run of the notebook the service calls happen in the
    order of the workflow, whatever the services answer: session, default
    bucket, execution role, VPC, security groups, subnets, route tables,
    S3 endpoint, training job, simulation application, training-time
    simulation jobs, metrics, cancellation of the simulation jobs, stop of
    the training job, evaluation job, deletion of the application.  So no
    simulation job is created before the training job was submitted,
    nothing is torn down before the metrics were fetched, and no call
    follows the deletion of the application. *)
Theorem X13_calls_in_workflow_order n cloud :
  StronglySorted le (omap phase (run (notebook n) cloud []).2).
Proof.
  destruct cells_staged
    as (Hsetup & Hdefine & Hrole & Hperm & Hvpc & Hendpoint & Hpreset & Hupload & Htrain
        & Hbundle & Happ & Hlaunch & Hlinks & Htmp & Hplot & Hcancel & Hstop & Heval
        & Hdelete).
  cut (staged 0 15 (notebook n)); [intros Hall; apply Hall|].
  unfold notebook.
  apply (staged_bind 0 1 15); [done|intros [s3_bucket s3_output_path]|lia..].
  apply (staged_bind 1 1 15); [done|intros v|lia..].
  apply (staged_bind 1 2 15); [by apply (staged_weaken 2 2); [|lia..]|intros role|lia..].
  apply (staged_bind 2 2 15); [done|intros _|lia..].
  apply (staged_bind 2 5 15); [by apply (staged_weaken 3 5); [|lia..]|intros net|lia..].
  apply (staged_bind 5 7 15); [by apply (staged_weaken 6 7); [|lia..]|intros _|lia..].
  apply (staged_bind 7 7 15); [done|intros _|lia..].
  apply (staged_bind 7 7 15); [done|intros _|lia..].
  apply (staged_bind 7 8 15);
    [by apply (staged_weaken 8 8); [|lia..]|intros current_job_name|lia..].
  apply (staged_bind 8 8 15); [done|intros _|lia..].
  apply (staged_bind 8 9 15);
    [by apply (staged_weaken 9 9); [|lia..]|intros simulation_app_arn|lia..].
  apply (staged_bind 9 10 15);
    [by apply (staged_weaken 10 10); [|lia..]|intros job_arns|lia..].
  apply (staged_bind 10 10 15); [done|intros _|lia..].
  apply (staged_bind 10 10 15); [done|intros [tmp_dir intermediate_folder_key]|lia..].
  apply (staged_bind 10 11 15); [by apply (staged_weaken 11 11); [|lia..]|intros _|lia..].
  apply (staged_bind 11 12 15); [by apply (staged_weaken 12 12); [|lia..]|intros _|lia..].
  apply (staged_bind 12 13 15); [by apply (staged_weaken 13 13); [|lia..]|intros _|lia..].
  apply (staged_bind 13 14 15); [by apply (staged_weaken 14 14); [|lia..]|intros _|lia..].
  by apply (staged_weaken 15 15); [|lia..].
Qed.

Example sample_run_phases :
  omap phase (run (notebook 2) (healthy_account "us-west-2") []).2
  = [0; 1; 2; 3; 4; 5; 6; 7; 8; 9; 10; 10; 11; 11; 12; 12; 13; 14; 15].
Proof. vm_compute. reflexivity. Qed.

(** ** What the requests of one run have in common *)

Lemma ensures_emits {A} P (m : NB A) : emits P m → ensures P m (λ _, True).
Proof. intros Hm cloud past. split; [apply Hm | done]. Qed.

Lemma ensures_bind {A B} P (m : NB A) (k : A → NB B) (Q : A → Prop) (R : B → Prop) :
  ensures P m Q → (∀ a, Q a → ensures P (k a) R) → ensures P (m ≫= k) R.
Proof.
  intros Hm Hk cloud past. rewrite run_bind.
  destruct (Hm cloud past) as [Hevs Hret].
  destruct (run m cloud past) as [[a|e] evs]; [|done].
  destruct (Hk a (Hret a eq_refl) cloud (past ++ evs)) as [Hevs' Hret'].
  destruct (run (k a) cloud (past ++ evs)) as [r evs']. cbn [fst snd] in *.
  split; [by apply Forall_app | done].
Qed.

Lemma exists_run_bind {A B X} (x0 : X) (P : X → Event → Prop)
    (m : NB A) (k : A → NB B) cloud past :
  (∀ x, Forall (P x) (run m cloud past).2) →
  (∀ a, (run m cloud past).1 = Ret a →
        ∃ x, Forall (P x) (run (k a) cloud (past ++ (run m cloud past).2)).2) →
  ∃ x, Forall (P x) (run (m ≫= k) cloud past).2.
Proof.
  intros Hm Hk. rewrite run_bind.
  destruct (run m cloud past) as [[a|e] evs]; [|by exists x0; apply Hm].
  cbn [fst snd] in *. destruct (Hk a eq_refl) as [x Hx]. exists x.
  destruct (run (k a) cloud (past ++ evs)) as [r evs']. cbn [snd] in *.
  apply Forall_app. split; [apply Hm | done].
Qed.

Lemma consistent_without_request region s ev :
  carries_request ev = false → consistent region s ev.
Proof. by destruct ev. Qed.

(** The cells that run before anything is provisioned carry no request. *)
Lemma early_cells_carry_no_request :
  emits (λ ev, carries_request ev = false) setup_s3_bucket ∧
  (∀ p, emits (λ ev, carries_request ev = false) (define_variables p)) ∧
  emits (λ ev, carries_request ev = false) create_iam_role ∧
  (∀ role, emits (λ ev, carries_request ev = false) (permission_setup role)) ∧
  emits (λ ev, carries_request ev = false) configure_vpc.
Proof.
  split_and!; intros;
    unfold setup_s3_bucket, define_variables, create_iam_role, permission_setup,
      configure_vpc;
    emits_all; reflexivity.
Qed.

Section consistency.
Variables (s3_bucket role : string) (v : Variables) (net : Network).

Let s := {| set_bucket := s3_bucket; set_job_name := job_name v;
            set_role := role; set_network := net |}.
Let P := consistent (aws_region v) s.

Ltac consistent_events :=
  emits_all;
  try (apply consistent_without_request; reflexivity);
  repeat split; try reflexivity; repeat constructor.

Lemma create_s3_endpoint_consistent :
  emits P (create_s3_endpoint (aws_region v) role (default_vpc net)).
Proof.
  unfold create_s3_endpoint, find_route_tables, attach_s3_endpoint.
  consistent_events.
Qed.

Lemma train_consistent :
  ensures P (train v s3_bucket ("s3://" +:+ s3_bucket +:+ "/") role net)
          (λ name, name = job_name v).
Proof.
  intros cloud past. split.
  - as_emits. unfold train. consistent_events.
  - unfold train. rewrite run_bind, run_call.
    destruct (fit cloud past _) as [[]|e]; [|done]. by intros name [= <-].
Qed.

Lemma create_simulation_app_consistent :
  emits P (create_simulation_app s3_bucket role).
Proof. unfold create_simulation_app. consistent_events. Qed.

Lemma launch_consistent n simulation_app_arn :
  emits P (launch_simulation_jobs n v s3_bucket role simulation_app_arn net).
Proof. unfold launch_simulation_jobs, submit_simulation_job. consistent_events. Qed.

Lemma make_tmp_dir_consistent :
  ensures P (make_tmp_dir (job_name v))
          (λ '(tmp_dir, key), tmp_dir = "/tmp/" +:+ job_name v
                              ∧ key = job_name v +:+ "/output/intermediate").
Proof.
  intros cloud past. split.
  - as_emits. unfold make_tmp_dir. consistent_events.
  - unfold make_tmp_dir. rewrite !run_emit_then, run_ret. by intros [??] [= <- <-].
Qed.

Lemma plot_metrics_consistent :
  emits P (plot_metrics s3_bucket ("/tmp/" +:+ job_name v)
             (job_name v +:+ "/output/intermediate")).
Proof. unfold plot_metrics, plot_training_reward. consistent_events. Qed.

Lemma stop_training_consistent : emits P (stop_training (job_name v)).
Proof. unfold stop_training. consistent_events. Qed.

Lemma evaluate_consistent simulation_app_arn :
  emits P (evaluate v s3_bucket role simulation_app_arn net).
Proof. unfold evaluate, submit_simulation_job. consistent_events. Qed.

Lemma quiet_cells_consistent :
  emits P show_preset ∧
  (∀ b p, emits P (upload_environment b p)) ∧
  (∀ b, emits P (upload_bundle b)) ∧
  (∀ arns region, emits P (show_links arns region)) ∧
  (∀ arns, emits P (cancel_simulation_jobs arns)) ∧
  (∀ app, emits P (delete_simulation_app app)).
Proof.
  split_and!; intros;
    unfold show_preset, upload_environment, upload_bundle, show_links,
      cancel_simulation_jobs, delete_simulation_app;
    consistent_events.
Qed.

End consistency.

(** The cells after the network is configured, run with the bucket, the
    variables, the role and the network of the cells before them. *)
Lemma later_cells_consistent n s3_bucket role v net :
  ensures
    (consistent (aws_region v)
       {| set_bucket := s3_bucket; set_job_name := job_name v;
          set_role := role; set_network := net |})
    (create_s3_endpoint (aws_region v) role (default_vpc net);;
     show_preset;;
     upload_environment s3_bucket (s3_prefix v);;
     current_job_name ← train v s3_bucket ("s3://" +:+ s3_bucket +:+ "/") role net;
     upload_bundle s3_bucket;;
     simulation_app_arn ← create_simulation_app s3_bucket role;
     job_arns ← launch_simulation_jobs n v s3_bucket role simulation_app_arn net;
     show_links job_arns (aws_region v);;
     '(tmp_dir, intermediate_folder_key) ← make_tmp_dir (job_name v);
     plot_metrics s3_bucket tmp_dir intermediate_folder_key;;
     cancel_simulation_jobs job_arns;;
     stop_training current_job_name;;
     evaluate v s3_bucket role simulation_app_arn net;;
     delete_simulation_app simulation_app_arn)
    (λ _, True).
Proof.
  destruct (quiet_cells_consistent s3_bucket role v net)
    as (Hpreset & Hupload & Hbundle & Hlinks & Hcancel & Hdelete).
  eapply ensures_bind; [apply ensures_emits, create_s3_endpoint_consistent|intros _ _].
  eapply ensures_bind; [apply ensures_emits, Hpreset|intros _ _].
  eapply ensures_bind; [apply ensures_emits, Hupload|intros _ _].
  eapply ensures_bind; [apply train_consistent|intros current_job_name ->].
  eapply ensures_bind; [apply ensures_emits, Hbundle|intros _ _].
  eapply ensures_bind;
    [apply ensures_emits, create_simulation_app_consistent|intros simulation_app_arn _].
  eapply ensures_bind; [apply ensures_emits, launch_consistent|intros job_arns _].
  eapply ensures_bind; [apply ensures_emits, Hlinks|intros _ _].
  eapply ensures_bind;
    [apply make_tmp_dir_consistent|intros [tmp_dir key] [-> ->]].
  eapply ensures_bind; [apply ensures_emits, plot_metrics_consistent|intros _ _].
  eapply ensures_bind; [apply ensures_emits, Hcancel|intros _ _].
  eapply ensures_bind; [apply ensures_emits, stop_training_consistent|intros _ _].
  eapply ensures_bind; [apply ensures_emits, evaluate_consistent|intros _ _].
  apply ensures_emits, Hdelete.
Qed.

(** Bucket, job name, role and network are settled by the first cells; every
    request of the remaining cells is built from them and from the region of
    the session. *)
Lemma notebook_consistent n cloud :
  ∃ s, Forall (consistent (boto_region_name cloud) s) (run (notebook n) cloud []).2.
Proof.
  destruct early_cells_carry_no_request as (Hsetup & Hdefine & Hrole & Hperm & Hvpc).
  assert (∀ {A} (m : NB A) past,
            emits (λ ev, carries_request ev = false) m →
            ∀ s, Forall (consistent (boto_region_name cloud) s) (run m cloud past).2)
    as Hearly.
  { intros A m past Hm s. eapply Forall_impl; [apply Hm|].
    intros ev. apply consistent_without_request. }
  unfold notebook.
  apply (exists_run_bind no_setting); [by apply Hearly|].
  intros [s3_bucket s3_output_path] Hbucket.
  assert (s3_output_path = "s3://" +:+ s3_bucket +:+ "/") as ->.
  { revert Hbucket. rewrite setup_s3_bucket_run.
    destruct (new_session cloud []); [|done].
    destruct (default_bucket cloud ([] ++ [EvSession])); [|done].
    by intros [= <- <-]. }
  apply (exists_run_bind no_setting); [by apply Hearly|].
  intros v Hv.
  assert (aws_region v = boto_region_name cloud) as Hregion.
  { destruct (run (define_variables _) cloud _) as [r evs] eqn:Hrun.
    simpl in Hv. subst r.
    by apply define_variables_returns in Hrun as (_ & _ & _ & _ & _ & ? & _). }
  apply (exists_run_bind no_setting); [by apply Hearly|]. intros role _.
  apply (exists_run_bind no_setting); [by apply Hearly|]. intros _ _.
  apply (exists_run_bind no_setting); [by apply Hearly|]. intros net _.
  exists {| set_bucket := s3_bucket; set_job_name := job_name v;
            set_role := role; set_network := net |}.
  rewrite <- Hregion.
  apply (later_cells_consistent n s3_bucket role v net).
Qed.

(** An event that names the role or the network, in a run that starts
    with a computation without requests, comes after that computation has
    returned. *)
Lemma run_bind_quiet {A B} (m : NB A) (k : A → NB B) cloud past ev :
  emits (λ ev, carries_request ev = false) m →
  names_identity ev = true →
  ev ∈ (run (m ≫= k) cloud past).2 →
  ∃ a evs, run m cloud past = (Ret a, evs) ∧
           (run (m ≫= k) cloud past).2
           = evs ++ (run (k a) cloud (past ++ evs)).2 ∧
           Forall (λ ev, carries_request ev = false) evs ∧
           ev ∈ (run (k a) cloud (past ++ evs)).2.
Proof.
  intros Hm Hnames. specialize (Hm cloud past). rewrite run_bind.
  assert (ev ∈ (run m cloud past).2 → False) as Hquiet.
  { intros Hin. rewrite Forall_forall in Hm. specialize (Hm ev Hin). by destruct ev. }
  destruct (run m cloud past) as [[a|e] evs]; cbn [snd] in *; [|done].
  destruct (run (k a) cloud (past ++ evs)) as [r evs'] eqn:Hk.
  cbn [snd]. rewrite elem_of_app. intros [?|?]; [done|].
  exists a, evs. rewrite Hk. by split_and!.
Qed.

Lemma shares_identity_without_request role net ev :
  carries_request ev = false → shares_identity role net ev.
Proof. by destruct ev. Qed.

Lemma Forall_app_eq {A} (P : A → Prop) (l l1 l2 : list A) :
  l = l1 ++ l2 → Forall P l1 → Forall P l2 → Forall P l.
Proof. intros -> ??. by apply Forall_app. Qed.

(** X14: a run that submits a job or requests the S3 endpoint has got
    through its first five cells, each run after the events of the cells
    before it; the role is the one the role cell returned there and the
    network is the one the Configure VPC cell returned there.  The training
    job and all simulation jobs, the evaluation job included, are submitted
    with that role, the subnets and the security groups of that network, and
    the S3 endpoint is requested for the VPC of that network. *)
Theorem X14_jobs_share_identity n cloud :
  let trace := (run (notebook n) cloud []).2 in
  (∃ ev, ev ∈ trace ∧ names_identity ev = true) →
  ∃ s3_bucket v role net bucket_evs variables_evs role_evs help_evs vpc_evs after,
    trace = bucket_evs ++ variables_evs ++ role_evs ++ help_evs ++ vpc_evs ++ after ∧
    run setup_s3_bucket cloud []
    = (Ret (s3_bucket, "s3://" +:+ s3_bucket +:+ "/"), bucket_evs) ∧
    run (define_variables ("s3://" +:+ s3_bucket +:+ "/")) cloud bucket_evs
    = (Ret v, variables_evs) ∧
    run create_iam_role cloud (bucket_evs ++ variables_evs) = (Ret role, role_evs) ∧
    run (permission_setup role) cloud (bucket_evs ++ variables_evs ++ role_evs)
    = (Ret tt, help_evs) ∧
    run configure_vpc cloud (bucket_evs ++ variables_evs ++ role_evs ++ help_evs)
    = (Ret net, vpc_evs) ∧
    Forall (shares_identity role net) trace.
Proof.
  intros trace (ev & Hin & Hnames). unfold trace in *. clear trace.
  destruct early_cells_carry_no_request as (Hsetup & Hdefine & Hrole & Hperm & Hvpc).
  unfold notebook in *.
  apply run_bind_quiet in Hin
      as ([s3_bucket s3_output_path] & evs0 & H0 & E0 & Q0 & Hin); [|done..].
  cbv beta iota in Hin.
  assert (s3_output_path = "s3://" +:+ s3_bucket +:+ "/") as ->.
  { revert H0. rewrite setup_s3_bucket_run.
    destruct (new_session cloud []); [|done].
    destruct (default_bucket cloud ([] ++ [EvSession])); [|done].
    by intros [= <- <-]. }
  apply run_bind_quiet in Hin as (v & evs1 & H1 & E1 & Q1 & Hin); [|done..].
  apply run_bind_quiet in Hin as (role & evs2 & H2 & E2 & Q2 & Hin); [|done..].
  apply run_bind_quiet in Hin as ([] & evs3 & H3 & E3 & Q3 & Hin); [|done..].
  apply run_bind_quiet in Hin as (net & evs4 & H4 & E4 & Q4 & Hin); [|done..].
  eexists s3_bucket, v, role, net, evs0, evs1, evs2, evs3, evs4, _.
  assert (∀ evs, Forall (λ ev, carries_request ev = false) evs →
                 Forall (shares_identity role net) evs) as Hearly.
  { intros evs Hevs. eapply Forall_impl; [exact Hevs|]. intros ev'.
    apply shares_identity_without_request. }
  split_and!.
  - rewrite E0. f_equal.
    etrans; [exact E1|]. f_equal.
    etrans; [exact E2|]. f_equal.
    etrans; [exact E3|]. f_equal.
    exact E4.
  - exact H0.
  - exact H1.
  - exact H2.
  - rewrite !app_assoc. exact H3.
  - rewrite !app_assoc. exact H4.
  - rewrite E0. apply Forall_app. split; [by apply Hearly|].
    eapply Forall_app_eq; [exact E1|by apply Hearly|].
    eapply Forall_app_eq; [exact E2|by apply Hearly|].
    eapply Forall_app_eq; [exact E3|by apply Hearly|].
    eapply Forall_app_eq; [exact E4|by apply Hearly|].
    eapply Forall_impl;
      [apply (proj1 (later_cells_consistent n s3_bucket role v net cloud _))|].
    by intros ev' (? & _).
Qed.

Lemma X14_jobs_share_identity_witness :
  Forall (shares_identity "arn:aws:iam::1:role/notebook" sample_network)
         (run (notebook 2) (healthy_account "us-west-2") []).2.
Proof.
  destruct (X14_jobs_share_identity 2 (healthy_account "us-west-2"))
    as (s3_bucket & v & role & net & bucket_evs & variables_evs & role_evs
        & help_evs & vpc_evs & after & _ & _ & _ & Hrole & _ & Hnet & Hall).
  { eexists. split.
    - apply (list_elem_of_lookup_2 _ 21). vm_compute. reflexivity.
    - reflexivity. }
  vm_compute in Hrole. injection Hrole as <- <-.
  vm_compute in Hnet. injection Hnet as <- <-.
  exact Hall.
Defined.

(** X15: in every run one bucket is used throughout: the training job
    writes under it, the simulation bundle is registered from it, the
    simulation jobs read the model from it and write to it.  The metrics
    are awaited in that bucket under
    [<job name>/output/intermediate/<csv file>], downloaded to
    [/tmp/<job name>] and read from that directory, and the training job
    stopped at the end is the one named at submission. *)
Theorem X15_jobs_share_storage n cloud :
  ∃ bucket name, Forall (shares_storage bucket name) (run (notebook n) cloud []).2.
Proof.
  destruct (notebook_consistent n cloud) as [s Hs].
  exists (set_bucket s), (set_job_name s).
  eapply Forall_impl; [exact Hs|]. by intros ev (_ & ? & _).
Qed.

(** X16: every request that names a region names the region of the
    session: the service name of the S3 endpoint, the [aws_region]
    hyperparameter of the training job and [ROS_AWS_REGION] of every
    simulation job.  And a run that issues any networking, training or
    simulation call is a run in a supported region. *)
Theorem X16_requests_use_session_region n cloud :
  Forall (uses_region (boto_region_name cloud)) (run (notebook n) cloud []).2 ∧
  (∀ ev, ev ∈ (run (notebook n) cloud []).2 → is_provisioning_call ev = true →
         boto_region_name cloud ∈ supported_regions).
Proof.
  split.
  - destruct (notebook_consistent n cloud) as [s Hs].
    eapply Forall_impl; [exact Hs|]. by intros ev (_ & _ & ?).
  - intros ev Hin Hcall.
    destruct (decide (boto_region_name cloud ∈ supported_regions)) as [|Hnot]; [done|].
    rewrite (notebook_rejected n cloud Hnot) in Hin.
    destruct (new_session cloud []).
    + destruct (default_bucket cloud [EvSession]); cbn [snd] in Hin;
        rewrite !elem_of_cons, elem_of_nil in Hin;
        by destruct Hin as [->|[->|[->|?]]] || destruct Hin as [->|[->|?]].
    + cbn [snd] in Hin. rewrite !elem_of_cons, elem_of_nil in Hin.
      by destruct Hin as [->|?].
Qed.

Example sample_run_is_consistent :
  Forall (consistent "us-west-2"
            {| set_bucket := "sagemaker-bucket";
               set_job_name := "rl-deepracer-sagemaker-190307-050901";
               set_role := "arn:aws:iam::1:role/notebook";
               set_network := sample_network |})
         (run (notebook 2) (healthy_account "us-west-2") []).2.
Proof. repeat constructor. Qed.

(** ** The keywords in the requests *)

Lemma cells_without_jobs :
  emits (λ ev, submits_job ev = false) setup_s3_bucket ∧
  (∀ p, emits (λ ev, submits_job ev = false) (define_variables p)) ∧
  emits (λ ev, submits_job ev = false) create_iam_role ∧
  (∀ role, emits (λ ev, submits_job ev = false) (permission_setup role)) ∧
  emits (λ ev, submits_job ev = false) configure_vpc ∧
  (∀ region role vpc,
     emits (λ ev, submits_job ev = false) (create_s3_endpoint region role vpc)) ∧
  emits (λ ev, submits_job ev = false) show_preset ∧
  (∀ b p, emits (λ ev, submits_job ev = false) (upload_environment b p)) ∧
  (∀ b, emits (λ ev, submits_job ev = false) (upload_bundle b)) ∧
  (∀ b role, emits (λ ev, submits_job ev = false) (create_simulation_app b role)) ∧
  (∀ arns region, emits (λ ev, submits_job ev = false) (show_links arns region)) ∧
  (∀ name, emits (λ ev, submits_job ev = false) (make_tmp_dir name)) ∧
  (∀ b d k, emits (λ ev, submits_job ev = false) (plot_metrics b d k)) ∧
  (∀ arns, emits (λ ev, submits_job ev = false) (cancel_simulation_jobs arns)) ∧
  (∀ name, emits (λ ev, submits_job ev = false) (stop_training name)) ∧
  (∀ app, emits (λ ev, submits_job ev = false) (delete_simulation_app app)).
Proof.
  split_and!; intros;
    unfold setup_s3_bucket, define_variables, create_iam_role, permission_setup,
      configure_vpc, create_s3_endpoint, find_route_tables, attach_s3_endpoint,
      show_preset, upload_environment, upload_bundle, create_simulation_app,
      show_links, make_tmp_dir, plot_metrics, plot_training_reward,
      cancel_simulation_jobs, stop_training, delete_simulation_app;
    emits_all; reflexivity.
Qed.

Lemma emits_impl {A} (P Q : Event → Prop) (m : NB A) :
  (∀ ev, P ev → Q ev) → emits P m → emits Q m.
Proof. intros HPQ Hm cloud past. eapply Forall_impl; [apply Hm | done]. Qed.

Lemma keeps_markers_without_job ev : submits_job ev = false → keeps_markers ev.
Proof. by destruct ev. Qed.

Section markers.
Variable v : Variables.
Hypothesis sagemaker_in_prefix : PyStr.str_in "sagemaker" (s3_prefix v) = true.
Hypothesis robomaker_in_prefix : PyStr.str_in "robomaker" (s3_prefix_robomaker v) = true.

Lemma train_keeps_markers s3_bucket s3_output_path role net :
  emits keeps_markers (train v s3_bucket s3_output_path role net).
Proof.
  unfold train. emits_all. exists (s3_prefix v).
  split; [apply estimator_s3_prefix | done].
Qed.

Lemma launch_keeps_markers n s3_bucket role simulation_app_arn net :
  emits keeps_markers (launch_simulation_jobs n v s3_bucket role simulation_app_arn net).
Proof.
  unfold launch_simulation_jobs, submit_simulation_job. emits_all; try exact I.
  split; [done|]. repeat constructor. exists (s3_prefix v).
  split; [apply training_environ_vars_prefix | done].
Qed.

Lemma evaluate_keeps_markers s3_bucket role simulation_app_arn net :
  emits keeps_markers (evaluate v s3_bucket role simulation_app_arn net).
Proof.
  unfold evaluate, submit_simulation_job. emits_all; try exact I.
  split; [done|]. repeat constructor. exists (s3_prefix v).
  split; [apply evaluation_environ_vars_prefix | done].
Qed.

End markers.

(** X17: the keywords the notebook sets out to keep reach the services.
    In every run the storage prefix given to the training job, and to every
    simulation job as [MODEL_S3_PREFIX], contains [sagemaker], and the
    output prefix of every simulation job, the evaluation job included,
    contains [robomaker]. *)
Theorem X17_requests_keep_markers n cloud :
  Forall keeps_markers (run (notebook n) cloud []).2.
Proof.
  destruct cells_without_jobs
    as (Hsetup & Hdefine & Hrole & Hperm & Hvpc & Hendpoint & Hpreset & Hupload
        & Hbundle & Happ & Hlinks & Htmp & Hplot & Hcancel & Hstop & Hdelete).
  assert (∀ {A} (m : NB A), emits (λ ev, submits_job ev = false) m → emits keeps_markers m)
    as Hquiet.
  { intros A m. apply emits_impl, keeps_markers_without_job. }
  unfold notebook. apply forall_run_bind; [by apply Hquiet|].
  intros [s3_bucket s3_output_path] _.
  apply forall_run_bind; [by apply Hquiet|].
  intros v Hv.
  destruct (run (define_variables s3_output_path) cloud _) as [r evs] eqn:Hrun.
  simpl in Hv. subst r.
  apply define_variables_returns in Hrun as (_ & _ & _ & Hsage & Hrobo & _).
  assert (PyStr.str_in "sagemaker" (s3_prefix v) = true) as Hs by (by rewrite Hsage).
  assert (PyStr.str_in "robomaker" (s3_prefix_robomaker v) = true) as Hr
    by (by rewrite Hrobo).
  as_emits.
  repeat first
    [ by apply Hquiet
    | by apply train_keeps_markers
    | by apply launch_keeps_markers
    | by apply evaluate_keeps_markers
    | lazymatch goal with
      | |- emits _ (_ ≫= _) => apply emits_bind; [|intros ?; cbn beta]
      | |- emits _ (let '(_, _) := ?p in _) => destruct p
      end ].
Qed.

Lemma X16_requests_use_session_region_witness :
  boto_region_name (healthy_account "us-west-2") ∈ supported_regions.
Proof.
  apply (proj2 (X16_requests_use_session_region 1 (healthy_account "us-west-2"))
           EvDescribeVpcs).
  - apply (list_elem_of_lookup_2 _ 7). vm_compute. reflexivity.
  - reflexivity.
Defined.
